(** * Stock checker: fundamentals normalisation, WACC and DCF

    A shallow embedding of the financial core of [utils.py]
    ([fetch_stock_info], [calculate_indicators], [calculate_dcf],
    [calculate_wacc]) and of the dashboard steps of [main.py] that feed
    it, with the properties established about them.

    Conventions of the embedding.
    - A Python value that is either a number or [None] is a [value].
    - Numbers are binary64, Rocq's primitive [float]; NaN is the float
      NaN.  A Python [int] is read as the float of the same value.
    - [calculate_dcf] is duck-typed and is called with Python numbers
      and with numpy scalars (the cells [fetch_stock_info] reads from
      the statement tables); the two differ in what raises, so its
      numbers carry their kind.  The C library's [pow] and the
      interpreter's [sum] are parameters of that part.
    - A Python exception is a [Raise] in the [result] monad; a
      [try ... except Exception] block is a [match] on the result. *)

From Stdlib Require Import PrimFloat ZArith Lia.
From stdpp Require Import gmap strings list fin_maps.

Set Default Proof Using "Type".
Set Warnings "-inexact-float".
Local Open Scope string_scope.

(** ** Python values and exceptions *)

Inductive value (N : Type) : Type :=
| VNone : value N
| VNum (x : N) : value N.
Arguments VNone {N}.
Arguments VNum {N} x.

Inductive exn : Type :=
| TypeError
| ZeroDivisionError
| KeyError
| IndexError
| OverflowError
| ProviderError.

Inductive result (A : Type) : Type :=
| Ok (a : A) : result A
| Raise (e : exn) : result A.
Arguments Ok {A} a.
Arguments Raise {A} e.

#[global] Instance result_ret : MRet result := fun A a => Ok a.
#[global] Instance result_bind : MBind result := fun A B k r =>
  match r with
  | Ok a => k a
  | Raise e => Raise e
  end.

(** [d.get(k)]: the stored value, [None] for a missing key. *)
Definition dict_get {N} (d : gmap string (value N)) (k : string) : value N :=
  default VNone (d !! k).

(** [k not in d or d[k] is None] *)
Definition missing {N} (d : gmap string (value N)) (k : string) : bool :=
  match d !! k with
  | None | Some VNone => true
  | Some (VNum _) => false
  end.

(** ** Binary64 numbers *)

Module F.
Local Open Scope float_scope.

Definition isnan (x : float) : bool := negb (x =? x).
Definition notna (x : float) : bool := x =? x.
Definition nonzero (x : float) : bool := negb (x =? 0).

(** Truth value of a Python object that is a float or [None]:
    [None] and zero are false, everything else (NaN too) is true. *)
Definition truthy (v : value float) : bool :=
  match v with
  | VNone => false
  | VNum x => nonzero x
  end.

(** [a / b] on Python floats: a zero divisor raises.  (A numpy scalar
    among the operands would not; [calculate_wacc] meets a zero divisor
    only when market capitalisation plus total debt is zero.) *)
Definition div (x y : float) : result float :=
  if y =? 0 then Raise ZeroDivisionError else Ok (x / y).
End F.

(** ** Statement tables (pandas DataFrame as returned by the provider)

    [df_rows] lists the line items in index order, each with its period
    values, most recent period first; [df_columns] is the number of
    periods.  A frame is rectangular: a cell beyond the stored values of
    its row reads as NaN.  Row labels are looked up by first match. *)

Record DataFrame : Type := {
  df_columns : nat;
  df_rows : list (string * list float)
}.

Definition df_empty (t : DataFrame) : bool :=
  (df_columns t =? 0)%nat || match df_rows t with [] => true | _ => false end.

Fixpoint row_find (name : string) (rows : list (string * list float))
  : option (list float) :=
  match rows with
  | [] => None
  | (n, cells) :: rest => if String.eqb n name then Some cells else row_find name rest
  end.

(** [name in t.index] *)
Definition in_index (name : string) (t : DataFrame) : bool :=
  match row_find name (df_rows t) with Some _ => true | None => false end.

(** [t.loc[name, col]] for a label known to be in the index. *)
Definition df_loc (t : DataFrame) (name : string) (col : nat) : float :=
  match row_find name (df_rows t) with
  | Some cells => nth col cells nan
  | None => nan
  end.

(** The values of a row over [t.columns], in column order. *)
Definition row_cells (t : DataFrame) (name : string) : list float :=
  map (df_loc t name) (seq 0 (df_columns t)).

(** ** calculate_wacc *)

Module Wacc.
Import F.
Local Open Scope float_scope.

Definition risk_free_rate : float := 0.0425.
Definition equity_risk_premium : float := 0.05.
Definition tax_rate : float := 0.21.

Definition unavailable : value float * value float * value float :=
  (VNone, VNone, VNone).

(** The [if not financials.empty:] block: the interest expense read
    from the income statement, [0] when no row is found. *)
Definition interest_expense_of (financials : DataFrame) : float :=
  if negb (df_empty financials) then
    if in_index "Interest Expense" financials then
      abs (df_loc financials "Interest Expense" 0)
    else if in_index "Interest Expense Non Operating" financials then
      abs (df_loc financials "Interest Expense Non Operating" 0)
    else 0
  else 0.

(** [beta * equity_risk_premium] and the like: [None] is a TypeError. *)
Definition num (v : value float) : result float :=
  match v with
  | VNum x => Ok x
  | VNone => Raise TypeError
  end.

(** Body of the [try] block, entered with [info] not [None].
    [financials] is the outcome of [stock.financials]. *)
Definition wacc_body (info : gmap string (value float))
    (financials : result DataFrame)
  : result (value float * value float * value float) :=
  (let beta := dict_get info "beta" in
   match beta with
   | VNone => Ok unavailable
   | VNum b =>
     let cost_of_equity := risk_free_rate + b * equity_risk_premium in
     fin ← financials;
     let interest_expense := interest_expense_of fin in
     let total_debt := dict_get info "totalDebt" in
     cost_of_debt ←
       (if truthy total_debt then
          td ← num total_debt;
          if (0 <? td) && (0 <? interest_expense)
          then F.div interest_expense td
          else Ok 0.045
        else Ok 0.045);
     let market_cap := dict_get info "marketCap" in
     if negb (truthy market_cap) then Ok unavailable
     else if negb (truthy total_debt) then
       Ok (VNum cost_of_equity, VNum cost_of_equity, VNum 0.0)
     else
       mc ← num market_cap;
       td ← num total_debt;
       let total_value := mc + td in
       equity_weight ← F.div mc total_value;
       debt_weight ← F.div td total_value;
       let wacc := (equity_weight * cost_of_equity)
                   + (debt_weight * cost_of_debt * (1 - tax_rate)) in
       Ok (VNum wacc, VNum cost_of_equity, VNum cost_of_debt)
   end).

(** [calculate_wacc(ticker, info)] with [info] supplied by the caller. *)
Definition calculate_wacc (info : gmap string (value float))
    (financials : result DataFrame)
  : value float * value float * value float :=
  match wacc_body info financials with
  | Ok r => r
  | Raise _ => unavailable
  end.

Definition cost_of_equity_of (r : value float * value float * value float)
  : value float := r.1.2.

(** The weighting can be carried out: the market capitalisation is
    truthy and, when there is debt, [market_cap + total_debt] is not
    zero. *)
Definition weights_ok (info : gmap string (value float)) : bool :=
  let market_cap := dict_get info "marketCap" in
  let total_debt := dict_get info "totalDebt" in
  truthy market_cap &&
  (negb (truthy total_debt) ||
   match market_cap, total_debt with
   | VNum mc, VNum td => negb (mc + td =? 0)
   | _, _ => false
   end).
End Wacc.

(** ** fetch_stock_info: the fundamentals normaliser *)

Module Normalize.
Import F.

(** What the data provider answers for one ticker.  Every access can
    raise.  [history_close] is the [Close] column of
    [stock.history(period="5d")], oldest bar first, empty for an empty
    frame. *)
Record provider : Type := {
  stock_info : result (gmap string (value float));
  fast_info_get : string -> result (value float);
  history_close : result (list float);
  cashflow : result DataFrame;
  balance_sheet : result DataFrame
}.

(** [info[k] = v] for the two price fields. *)
Definition set_price (v : value float) (info : gmap string (value float))
  : gmap string (value float) :=
  <["regularMarketPrice" := v]> (<["currentPrice" := v]> info).

(** Step 1: the price block. *)
Definition update_price (p : provider) (info : gmap string (value float))
  : gmap string (value float) :=
  match
    (last_price ← fast_info_get p "last_price";
     if truthy last_price then Ok (set_price last_price info)
     else
       recent ← history_close p;
       match last recent with
       | Some close => Ok (set_price (VNum close) info)
       | None => Ok info
       end)
  with
  | Ok info' => info'
  | Raise _ => info
  end.

(** Step 2: shares outstanding from the fast quote. *)
Definition update_shares (p : provider) (info : gmap string (value float))
  : gmap string (value float) :=
  if missing info "sharesOutstanding" then
    match fast_info_get p "shares" with
    | Ok shares =>
      if truthy shares then <["sharesOutstanding" := shares]> info else info
    | Raise _ => info
    end
  else info.

(** The loop over [cf.columns] on the "Free Cash Flow" row. *)
Fixpoint scan_free_cash_flow (cf : DataFrame) (cols : list nat) : option float :=
  match cols with
  | [] => None
  | col :: rest =>
    let val := df_loc cf "Free Cash Flow" col in
    if notna val && nonzero val then Some val
    else scan_free_cash_flow cf rest
  end.

(** The loop over [cf.columns] of the fallback calculation. *)
Fixpoint scan_ops_capex (cf : DataFrame) (cols : list nat) : option float :=
  match cols with
  | [] => None
  | col :: rest =>
    let ops := df_loc cf "Operating Cash Flow" col in
    let capex := df_loc cf "Capital Expenditure" col in
    if notna ops && notna capex then Some (ops + capex)%float
    else scan_ops_capex cf rest
  end.

(** What step 3 stores into [info['freeCashFlow']], if anything. *)
Definition extract_fcf (cf : DataFrame) : option float :=
  if negb (df_empty cf) then
    if in_index "Free Cash Flow" cf then
      scan_free_cash_flow cf (seq 0 (df_columns cf))
    else if in_index "Operating Cash Flow" cf
            && in_index "Capital Expenditure" cf then
      scan_ops_capex cf (seq 0 (df_columns cf))
    else None
  else None.

(** Step 3: free cash flow from the cash-flow statement. *)
Definition update_fcf (p : provider) (info : gmap string (value float))
  : gmap string (value float) :=
  if missing info "freeCashFlow" then
    match cashflow p with
    | Ok cf =>
      match extract_fcf cf with
      | Some val => <["freeCashFlow" := VNum val]> info
      | None => info
      end
    | Raise _ => info
    end
  else info.

(** The first of two balance-sheet rows that is in the index, most
    recent period. *)
Definition first_row (bs : DataFrame) (row1 row2 : string) : option float :=
  if negb (df_empty bs) then
    if in_index row1 bs then Some (df_loc bs row1 0)
    else if in_index row2 bs then Some (df_loc bs row2 0)
    else None
  else None.

(** Step 4, total debt.  A key present with value [None] is deleted
    before the balance sheet is read. *)
Definition update_total_debt (p : provider) (info : gmap string (value float))
  : gmap string (value float) :=
  if missing info "totalDebt" then
    let info := delete "totalDebt" info in
    match balance_sheet p with
    | Ok bs =>
      match first_row bs "Total Debt" "Long Term Debt" with
      | Some v => <["totalDebt" := VNum v]> info
      | None => info
      end
    | Raise _ => info
    end
  else info.

(** Step 4, total cash. *)
Definition update_total_cash (p : provider) (info : gmap string (value float))
  : gmap string (value float) :=
  if missing info "totalCash" then
    match balance_sheet p with
    | Ok bs =>
      match first_row bs "Cash And Cash Equivalents"
              "Cash Cash Equivalents And Short Term Investments" with
      | Some v => <["totalCash" := VNum v]> info
      | None => info
      end
    | Raise _ => info
    end
  else info.

(** The body of [fetch_stock_info] after [info = stock.info]. *)
Definition normalize (p : provider) (info : gmap string (value float))
  : gmap string (value float) :=
  update_total_cash p
    (update_total_debt p
       (update_fcf p
          (update_shares p
             (update_price p info)))).

(** [fetch_stock_info(ticker)]; [None] when [stock.info] raises. *)
Definition fetch_stock_info (p : provider)
  : option (gmap string (value float)) :=
  match stock_info p with
  | Ok info => Some (normalize p info)
  | Raise _ => None
  end.

(** The reading of step 3 that tries the fallback calculation whenever
    the direct row gives no usable value. *)
Definition spec_extract_fcf (cf : DataFrame) : option float :=
  if negb (df_empty cf) then
    match (if in_index "Free Cash Flow" cf
           then scan_free_cash_flow cf (seq 0 (df_columns cf)) else None) with
    | Some v => Some v
    | None =>
      if in_index "Operating Cash Flow" cf && in_index "Capital Expenditure" cf
      then scan_ops_capex cf (seq 0 (df_columns cf))
      else None
    end
  else None.
End Normalize.

(** *** Per-field view of the normaliser *)

Module NormalizeView.
Import F Normalize.

(** What each step would store, read off the provider alone. *)
Definition price_src (p : provider) : option (value float) :=
  match fast_info_get p "last_price" with
  | Ok last_price =>
    if truthy last_price then Some last_price
    else match history_close p with
         | Ok recent => VNum <$> last recent
         | Raise _ => None
         end
  | Raise _ => None
  end.

Definition shares_src (p : provider) : option (value float) :=
  match fast_info_get p "shares" with
  | Ok shares => if truthy shares then Some shares else None
  | Raise _ => None
  end.

Definition fcf_src (p : provider) : option (value float) :=
  match cashflow p with
  | Ok cf => VNum <$> extract_fcf cf
  | Raise _ => None
  end.

Definition debt_src (p : provider) : option (value float) :=
  match balance_sheet p with
  | Ok bs => VNum <$> first_row bs "Total Debt" "Long Term Debt"
  | Raise _ => None
  end.

Definition cash_src (p : provider) : option (value float) :=
  match balance_sheet p with
  | Ok bs => VNum <$> first_row bs "Cash And Cash Equivalents"
                       "Cash Cash Equivalents And Short Term Investments"
  | Raise _ => None
  end.

(** The effect of a guarded step on the entry of its own key: an entry
    holding a number is kept; otherwise the source value is stored, and
    without a source value the entry stays, or is deleted when the step
    deletes a [None] entry first. *)
Definition fill_at (del : bool) (src : option (value float))
    (o : option (value float)) : option (value float) :=
  match o with
  | Some (VNum _) => o
  | _ => match src with
         | Some v => Some v
         | None => if del then None else o
         end
  end.

Definition overwrite_at (src : option (value float))
    (o : option (value float)) : option (value float) :=
  match src with
  | Some v => Some v
  | None => o
  end.

(** The entry of key [k] after normalisation, from its entry before. *)
Definition normalize_at (p : provider) (k : string)
    (o : option (value float)) : option (value float) :=
  if decide (k = "totalCash") then fill_at false (cash_src p) o
  else if decide (k = "totalDebt") then fill_at true (debt_src p) o
  else if decide (k = "freeCashFlow") then fill_at false (fcf_src p) o
  else if decide (k = "sharesOutstanding") then fill_at false (shares_src p) o
  else if decide (k = "regularMarketPrice") then overwrite_at (price_src p) o
  else if decide (k = "currentPrice") then overwrite_at (price_src p) o
  else o.
End NormalizeView.

(** ** calculate_dcf *)

Module Dcf.
Local Open Scope float_scope.

(** Where a number comes from: [Py] is a Python [int] or [float],
    [Np] a [numpy.float64] scalar, which is what a cell read from a
    pandas table is.  Both carry a binary64 value; an [int] is read as
    the float of the same value. *)
Inductive kind : Type := Py | Np.

Record num : Type := Num { num_kind : kind; num_val : float }.

(** The kind of the result of a binary operation: numpy's scalar
    takes over as soon as one operand is a numpy scalar. *)
Definition join (a b : kind) : kind :=
  match a, b with
  | Py, Py => Py
  | _, _ => Np
  end.

(** What the interpreter and the C library supply: the value of
    [x ** i] for a float [x] (the C library's [pow]), and the fast path
    of [sum] over a run of Python floats, which adds the run to the
    running total (plainly or with compensation, depending on the
    interpreter's version). *)
Record runtime : Type := {
  float_pow : float -> nat -> float;
  float_sum_run : float -> list float -> float
}.

Definition py_add (a b : value num) : result (value num) :=
  match a, b with
  | VNum (Num k x), VNum (Num k' y) => Ok (VNum (Num (join k k') (x + y)))
  | _, _ => Raise TypeError
  end.

Definition py_sub (a b : value num) : result (value num) :=
  match a, b with
  | VNum (Num k x), VNum (Num k' y) => Ok (VNum (Num (join k k') (x - y)))
  | _, _ => Raise TypeError
  end.

Definition py_mul (a b : value num) : result (value num) :=
  match a, b with
  | VNum (Num k x), VNum (Num k' y) => Ok (VNum (Num (join k k') (x * y)))
  | _, _ => Raise TypeError
  end.

(** [a / b]: Python raises on a zero divisor; with a numpy scalar on
    either side the division is numpy's, which returns an infinity or
    NaN and raises nothing. *)
Definition py_div (a b : value num) : result (value num) :=
  match a, b with
  | VNum (Num k x), VNum (Num k' y) =>
    match join k k' with
    | Py =>
      if y =? 0 then Raise ZeroDivisionError else Ok (VNum (Num Py (x / y)))
    | Np => Ok (VNum (Num Np (x / y)))
    end
  | _, _ => Raise TypeError
  end.

(** [a ** i] for a positive integer exponent: Python raises
    [OverflowError] when the power of a finite float is infinite;
    numpy returns the infinity. *)
Definition py_pow (R : runtime) (a : value num) (i : nat)
  : result (value num) :=
  match a with
  | VNum (Num Py x) =>
    if is_finite x && is_infinity (float_pow R x i) then Raise OverflowError
    else Ok (VNum (Num Py (float_pow R x i)))
  | VNum (Num Np x) => Ok (VNum (Num Np (float_pow R x i)))
  | VNone => Raise TypeError
  end.

(** The integer literals [0] and [1]. *)
Definition int (x : float) : value num := VNum (Num Py x).

(** One round of the loop: the discounted cash flow of year [i]. *)
Definition discounted_fcf (R : runtime)
    (free_cash_flow growth_rate discount_rate : value num) (i : nat)
  : result (value num) :=
  g1 ← py_add (int 1) growth_rate;
  gi ← py_pow R g1 i;
  fcf ← py_mul free_cash_flow gi;
  d1 ← py_add (int 1) discount_rate;
  di ← py_pow R d1 i;
  py_div fcf di.

(** [for i in range(1, 6): ... future_cash_flows.append(discounted_fcf)] *)
Fixpoint future_cash_flows (R : runtime)
    (free_cash_flow growth_rate discount_rate : value num)
    (years : list nat) : result (list (value num)) :=
  match years with
  | [] => Ok []
  | i :: rest =>
    x ← discounted_fcf R free_cash_flow growth_rate discount_rate i;
    xs ← future_cash_flows R free_cash_flow growth_rate discount_rate rest;
    Ok (x :: xs)
  end.

(** The leading run of Python floats of a list, and what follows it. *)
Fixpoint exact_run (l : list (value num)) : list float * list (value num) :=
  match l with
  | VNum (Num Py x) :: rest =>
    let '(run, tail) := exact_run rest in (x :: run, tail)
  | _ => ([], l)
  end.

(** The general path of [sum]: one [+] per item. *)
Fixpoint sum_generic (acc : value num) (l : list (value num))
  : result (value num) :=
  match l with
  | [] => Ok acc
  | x :: rest => acc' ← py_add acc x; sum_generic acc' rest
  end.

(** [sum(l)]: the first item is added to the integer [0]; while the
    total is a Python float the following Python floats go through the
    fast path; everything else is added item by item. *)
Definition py_sum (R : runtime) (l : list (value num)) : result (value num) :=
  match l with
  | [] => Ok (int 0)
  | first :: rest =>
    acc ← py_add (int 0) first;
    match acc with
    | VNum (Num Py x) =>
      let '(run, tail) := exact_run rest in
      sum_generic (VNum (Num Py (float_sum_run R x run))) tail
    | _ => sum_generic acc rest
    end
  end.

(** The body of the [try] block. *)
Definition dcf_body (R : runtime)
    (free_cash_flow growth_rate discount_rate terminal_growth_rate
       shares_outstanding net_debt : value num) : result (value num) :=
  flows ← future_cash_flows R free_cash_flow growth_rate discount_rate
            (seq 1 5);
  g1 ← py_add (int 1) growth_rate;
  g5 ← py_pow R g1 5;
  fg ← py_mul free_cash_flow g5;
  t1 ← py_add (int 1) terminal_growth_rate;
  terminal_value_fcf ← py_mul fg t1;
  spread ← py_sub discount_rate terminal_growth_rate;
  terminal_value ← py_div terminal_value_fcf spread;
  d1 ← py_add (int 1) discount_rate;
  d5 ← py_pow R d1 5;
  discounted_terminal_value ← py_div terminal_value d5;
  total ← py_sum R flows;
  enterprise_value ← py_add total discounted_terminal_value;
  equity_value ← py_sub enterprise_value net_debt;
  py_div equity_value shares_outstanding.

(** [calculate_dcf]: any exception is caught and [None] is returned. *)
Definition calculate_dcf (R : runtime)
    (free_cash_flow growth_rate discount_rate terminal_growth_rate
       shares_outstanding net_debt : value num) : value num :=
  match dcf_body R free_cash_flow growth_rate discount_rate
          terminal_growth_rate shares_outstanding net_debt with
  | Ok intrinsic_value => intrinsic_value
  | Raise _ => VNone
  end.

(** *** The outcome described from the inputs *)

Definition is_py (k : kind) : bool :=
  match k with Py => true | Np => false end.

(** [x ** i] raises: [x] is a finite Python float whose power is
    infinite. *)
Definition pow_overflows (R : runtime) (k : kind) (x : float) (i : nat)
  : bool :=
  is_py k && is_finite x && is_infinity (float_pow R x i).

(** Year [i] of the loop raises: one of its two powers overflows, or
    the discount factor is zero with Python numbers on both sides of
    the division. *)
Definition year_fails (R : runtime) (fcf g d : num) (i : nat) : bool :=
  pow_overflows R (num_kind g) (1 + num_val g) i
  || pow_overflows R (num_kind d) (1 + num_val d) i
  || (is_py (num_kind fcf) && is_py (num_kind g) && is_py (num_kind d)
      && (float_pow R (1 + num_val d) i =? 0)).

(** Every number of [l] is a Python number. *)
Definition all_py (l : list num) : bool :=
  forallb (fun n => is_py (num_kind n)) l.

(** Some step of the body raises. *)
Definition dcf_fails (R : runtime) (fcf g d t s nd : num) : bool :=
  existsb (year_fails R fcf g d) (seq 1 5)
  || (all_py [fcf; g; d; t] && (num_val d - num_val t =? 0))
  || (all_py [fcf; g; d; t; s; nd] && (num_val s =? 0)).

(** The kind of a result computed from the numbers of [l]. *)
Definition kind_of (l : list num) : kind := if all_py l then Py else Np.

(** The discounted cash flow of year [i], as a float. *)
Definition discounted (R : runtime) (fcf g d : float) (i : nat) : float :=
  fcf * float_pow R (1 + g) i / float_pow R (1 + d) i.

(** The total of the five flows, as [sum] forms it for their kind. *)
Definition flows_total (R : runtime) (k : kind) (xs : list float) : float :=
  match xs with
  | [] => 0
  | x :: rest =>
    match k with
    | Py => float_sum_run R (0 + x) rest
    | Np => fold_left PrimFloat.add rest (0 + x)
    end
  end.

(** The intrinsic value in the order the code computes it. *)
Definition dcf_value (R : runtime) (fcf g d t s nd : num) : num :=
  let total :=
    flows_total R (kind_of [fcf; g; d])
      (map (discounted R (num_val fcf) (num_val g) (num_val d)) (seq 1 5)) in
  let discounted_terminal_value :=
    num_val fcf * float_pow R (1 + num_val g) 5 * (1 + num_val t)
    / (num_val d - num_val t) / float_pow R (1 + num_val d) 5 in
  Num (kind_of [fcf; g; d; t; s; nd])
    ((total + discounted_terminal_value - num_val nd) / num_val s).

(** A reference runtime: powers by repeated multiplication, the fast
    path of [sum] by plain additions. *)
Fixpoint pow_mult (x : float) (i : nat) : float :=
  match i with
  | O => 1
  | S O => x
  | S j => pow_mult x j * x
  end.

Definition runtime_ref : runtime :=
  {| float_pow := pow_mult;
     float_sum_run := fun total run => fold_left PrimFloat.add run total |}.

Definition py (x : float) : value num := VNum (Num Py x).
Definition np (x : float) : value num := VNum (Num Np x).
End Dcf.

(** ** calculate_indicators

    DataFrames are mutable objects: the store maps an object identity
    to the frame it holds, and the function receives a reference.  The
    indicator functions of the [ta] package are not part of this
    program; they are taken as a record of functions on a price column,
    each of which may raise. *)

Module Indicators.
Definition column : Type := list float.

(** Single-level columns, or two-level columns with the labels of the
    second level ([df.columns.levels[1]]). *)
Inductive columns : Type :=
| Flat (c : gmap string column)
| Multi (levels1 : list string) (c : gmap (string * string) column).

Record frame : Type := {
  index_len : nat;
  frame_columns : columns
}.

Record ta_lib : Type := {
  sma_indicator : column -> nat -> result column;
  rsi : column -> nat -> result column;
  MACD : column -> result (column * column)
}.

Definition frame_empty (f : frame) : bool :=
  (index_len f =? 0)%nat ||
  match frame_columns f with
  | Flat c => bool_decide (c = ∅)
  | Multi _ c => bool_decide (c = ∅)
  end.

(** [df.xs(key, axis=1, level=1)]: the columns whose second label is
    [key], under their first label; a key that selects nothing raises. *)
Definition xs (key : string) (c : gmap (string * string) column)
  : result (gmap string column) :=
  let selected :=
    omap (fun kv : string * string * column =>
            if decide (kv.1.2 = key) then Some (kv.1.1, kv.2) else None)
         (map_to_list c) in
  match selected with
  | [] => Raise KeyError
  | _ => Ok (list_to_map selected)
  end.

(** The store, the local variable [df] and the local variable [macd]. *)
Record state : Type := {
  st_heap : gmap nat frame;
  st_df : nat;
  st_macd : option (column * column)
}.

(** [df[name]] on the current frame. *)
Definition getitem (s : state) (name : string) : result column :=
  match st_heap s !! st_df s with
  | Some f =>
    match frame_columns f with
    | Flat c =>
      match c !! name with
      | Some col => Ok col
      | None => Raise KeyError
      end
    | Multi _ _ => Raise KeyError
    end
  | None => Raise KeyError
  end.

(** [df[name] = v]: the frame object itself is updated. *)
Definition setitem (s : state) (name : string) (v : column) : result state :=
  match st_heap s !! st_df s with
  | Some f =>
    match frame_columns f with
    | Flat c =>
      Ok {| st_heap :=
              <[st_df s := {| index_len := index_len f;
                              frame_columns := Flat (<[name := v]> c) |}]>
                (st_heap s);
            st_df := st_df s;
            st_macd := st_macd s |}
    | Multi _ _ => Raise TypeError
    end
  | None => Raise KeyError
  end.

(** [if isinstance(df.columns, pd.MultiIndex): df = df.xs(...)]: the
    cross-section is a new frame, [df] is rebound to it. *)
Definition squeeze (s : state) : result state :=
  match st_heap s !! st_df s with
  | Some f =>
    match frame_columns f with
    | Multi levels1 c =>
      key ← match levels1 with
            | k :: _ => Ok k
            | [] => Raise IndexError
            end;
      c' ← xs key c;
      let l' := fresh (dom (st_heap s)) in
      Ok {| st_heap :=
              <[l' := {| index_len := index_len f;
                         frame_columns := Flat c' |}]> (st_heap s);
            st_df := l';
            st_macd := st_macd s |}
    | Flat _ => Ok s
    end
  | None => Ok s
  end.

(** [df[name] = compute(df['Close'])] *)
Definition assign (name : string) (compute : column -> result column)
    (s : state) : result state :=
  close ← getitem s "Close";
  v ← compute close;
  setitem s name v.

(** [macd = ta.trend.MACD(df['Close'])] *)
Definition new_macd (L : ta_lib) (s : state) : result state :=
  close ← getitem s "Close";
  m ← MACD L close;
  Ok {| st_heap := st_heap s; st_df := st_df s; st_macd := Some m |}.

(** [df[name] = macd.macd()] and [df[name] = macd.macd_signal()] *)
Definition assign_macd (name : string)
    (line : column * column -> column) (s : state) : result state :=
  match st_macd s with
  | Some m => setitem s name (line m)
  | None => Raise TypeError
  end.

(** The statements of the [try] block, in order. *)
Definition try_block (L : ta_lib) : list (state -> result state) :=
  [ squeeze;
    assign "SMA_20" (fun close => sma_indicator L close 20);
    assign "SMA_50" (fun close => sma_indicator L close 50);
    assign "RSI" (fun close => rsi L close 14);
    new_macd L;
    assign_macd "MACD" fst;
    assign_macd "MACD_Signal" snd ].

(** Statements run in order; the first one that raises ends the block,
    and what was done before it stays done. *)
Fixpoint run_try (stmts : list (state -> result state)) (s : state) : state :=
  match stmts with
  | [] => s
  | stmt :: rest =>
    match stmt s with
    | Ok s' => run_try rest s'
    | Raise _ => s
    end
  end.

(** [calculate_indicators(df)]: the store after the call and the
    reference returned. *)
Definition calculate_indicators (L : ta_lib) (h : gmap nat frame)
    (df : option nat) : gmap nat frame * option nat :=
  match df with
  | None => (h, None)
  | Some l =>
    match h !! l with
    | Some f =>
      if frame_empty f then (h, Some l)
      else
        let s := run_try (try_block L)
                   {| st_heap := h; st_df := l; st_macd := None |} in
        (st_heap s, Some (st_df s))
    | None => (h, Some l)
    end
  end.

Definition indicator_names : list string :=
  ["SMA_20"; "SMA_50"; "RSI"; "MACD"; "MACD_Signal"].

(** The column [name] of the frame stored at [l], if any. *)
Definition column_at (h : gmap nat frame) (l : nat) (name : string)
  : option column :=
  f ← h !! l;
  match frame_columns f with
  | Flat c => c !! name
  | Multi _ _ => None
  end.

(** [s'] differs from [s] at most by columns named in [names] of the
    single-level frame [df] refers to. *)
Definition writes_only (names : list string) (s s' : state) : Prop :=
  st_df s' = st_df s /\
  (forall l, l <> st_df s -> st_heap s' !! l = st_heap s !! l) /\
  exists n c c',
    st_heap s !! st_df s = Some {| index_len := n; frame_columns := Flat c |} /\
    st_heap s' !! st_df s = Some {| index_len := n; frame_columns := Flat c' |} /\
    forall name, name ∉ names -> c' !! name = c !! name.

Definition flat_at (s : state) : Prop :=
  exists n c,
    st_heap s !! st_df s = Some {| index_len := n; frame_columns := Flat c |}.

(** An instance of the library for a series shorter than every window,
    where every indicator is undefined on every bar: each function
    returns a column of NaN of the length of its input. *)
Definition ta_short : ta_lib :=
{| sma_indicator := fun close _ => Ok (map (fun _ => nan) close);
   rsi := fun close _ => Ok (map (fun _ => nan) close);
   MACD := fun close =>
     Ok (map (fun _ => nan) close, map (fun _ => nan) close) |}.
End Indicators.

(** ** Sample inputs *)

Module Samples.
Import Normalize.
Local Open Scope float_scope.

Definition profile_zero_cap : gmap string (value float) :=
  <["beta" := VNum 1.2]> (<["marketCap" := VNum 0]>
    (<["totalDebt" := VNum 500]> ∅)).
Definition profile_no_debt : gmap string (value float) :=
<["beta" := VNum 1.2]> (<["marketCap" := VNum 1000]>
  (<["totalDebt" := VNum 0]> ∅)).
Definition profile_no_cap : gmap string (value float) :=
  <["beta" := VNum 1.2]> (<["totalDebt" := VNum 500]> ∅).
Definition income_statement : DataFrame :=
  {| df_columns := 2;
     df_rows := [("Interest Expense", [-20; -18]); ("Net Income", [300; 280])] |}.

(** A cash-flow statement without a "Free Cash Flow" row. *)
Definition cf_fallback : DataFrame :=
{| df_columns := 1;
   df_rows := [("Operating Cash Flow", [100]);
               ("Capital Expenditure", [-30])] |}.

(** A cash-flow statement whose "Free Cash Flow" row holds no usable
    value, next to usable operating cash flow and capital expenditure. *)
Definition cf_unusable_row : DataFrame :=
{| df_columns := 1;
   df_rows := [("Free Cash Flow", [nan]);
               ("Operating Cash Flow", [100]);
               ("Capital Expenditure", [-30])] |}.

(** A provider with a fast quote, no price history and no balance
    sheet. *)
Definition provider_of (last_price shares : value float) (cf : DataFrame)
  : provider :=
{| stock_info := Ok ∅;
   fast_info_get := fun k =>
     if String.eqb k "last_price" then Ok last_price
     else if String.eqb k "shares" then Ok shares
     else Ok VNone;
   history_close := Ok [];
   cashflow := Ok cf;
   balance_sheet := Raise ProviderError |}.

Definition snapshot_priced : gmap string (value float) :=
<["currentPrice" := VNum 100]> (<["sharesOutstanding" := VNum 500]> ∅).

(** A store with one frame of a single bar. *)
Definition one_bar : gmap nat Indicators.frame :=
{[ 0%nat := {| Indicators.index_len := 1;
               Indicators.frame_columns :=
                 Indicators.Flat {[ "Close" := [1.5] ]} |} ]}.
End Samples.

(** ** The analysis run: fetch, normalise, WACC *)

Module Pipeline.
Import Normalize.

(** The keys [fetch_stock_info] assigns to. *)
Definition normalized_keys : list string :=
  ["currentPrice"; "regularMarketPrice"; "sharesOutstanding";
   "freeCashFlow"; "totalDebt"; "totalCash"].

(** [calculate_wacc(ticker, info)] as the dashboard calls it: an [info]
    that is [None] is fetched again before anything else. *)
Definition calculate_wacc_ticker (p : provider) (financials : result DataFrame)
    (info : option (gmap string (value float)))
  : value float * value float * value float :=
  match info with
  | Some info => Wacc.calculate_wacc info financials
  | None =>
    match fetch_stock_info p with
    | Some info => Wacc.calculate_wacc info financials
    | None => Wacc.unavailable
    end
  end.
End Pipeline.

(** ** More sample inputs *)

Module MoreSamples.
Import Normalize.
Local Open Scope float_scope.

(** A profile with debt. *)
Definition profile_debt : gmap string (value float) :=
<["beta" := VNum 1.2]> (<["marketCap" := VNum 1000]>
  (<["totalDebt" := VNum 500]> ∅)).

(** A provider none of whose accesses answers. *)
Definition provider_down : provider :=
{| stock_info := Raise ProviderError;
   fast_info_get := fun _ => Raise ProviderError;
   history_close := Raise ProviderError;
   cashflow := Raise ProviderError;
   balance_sheet := Raise ProviderError |}.

(** Two periods; the most recent "Free Cash Flow" cell is NaN. *)
Definition cf_two_periods : DataFrame :=
{| df_columns := 2;
   df_rows := [("Free Cash Flow", [nan; 250]);
               ("Operating Cash Flow", [400; 380])] |}.

(** Two periods, no "Free Cash Flow" row; the most recent operating
    cash flow is NaN. *)
Definition cf_fallback_two_periods : DataFrame :=
{| df_columns := 2;
   df_rows := [("Operating Cash Flow", [nan; 100]);
               ("Capital Expenditure", [-30; -20])] |}.

(** A provider without a fast price, with a two-bar price history. *)
Definition provider_history (cf : DataFrame) : provider :=
{| stock_info := Ok ∅;
   fast_info_get := fun _ => Ok VNone;
   history_close := Ok [99; 100.5];
   cashflow := Ok cf;
   balance_sheet := Raise ProviderError |}.

(** A provider whose fast quote raises although a price history exists. *)
Definition provider_quote_raises : provider :=
{| stock_info := Ok ∅;
   fast_info_get := fun _ => Raise ProviderError;
   history_close := Ok [99; 100.5];
   cashflow := Raise ProviderError;
   balance_sheet := Raise ProviderError |}.

Definition snapshot_null_debt : gmap string (value float) :=
<["totalDebt" := VNone]> (<["currentPrice" := VNum 100]> ∅).
End MoreSamples.

(** ** The dashboard ([main.py]) *)

Module Dashboard.
Import Indicators.

(** [name in df.columns]; on two-level columns the test is on the first
    label. *)
Definition has_column (h : gmap nat frame) (l : nat) (name : string) : bool :=
  match h !! l with
  | Some f =>
    match frame_columns f with
    | Flat c => bool_decide (is_Some (c !! name))
    | Multi _ c =>
      existsb (fun kv : string * string * column => String.eqb kv.1.1 name)
        (map_to_list c)
    end
  | None => false
  end.

(** [if 'SMA_20' not in df.columns: df = calculate_indicators(df)] *)
Definition ensure_indicators (L : ta_lib) (h : gmap nat frame) (l : nat)
  : gmap nat frame * option nat :=
  if has_column h l "SMA_20" then (h, Some l)
  else calculate_indicators L h (Some l).
End Dashboard.

(** ** Sample frames *)

Module FrameSamples.
Import Indicators.
Local Open Scope float_scope.

(** A frame without a [Close] column. *)
Definition frame_no_close : gmap nat frame :=
{[ 0%nat := {| index_len := 1;
               frame_columns := Flat {[ "Open" := [1.5] ]} |} ]}.

(** A frame with two-level columns, as a download of several tickers
    gives. *)
Definition frame_multi : gmap nat frame :=
{[ 0%nat := {| index_len := 1;
               frame_columns :=
                 Multi ["AAPL"] {[ ("Close", "AAPL") := [1.5] ]} |} ]}.

(** A library whose RSI raises. *)
Definition ta_rsi_fails : ta_lib :=
{| sma_indicator := fun close _ => Ok (map (fun _ => nan) close);
   rsi := fun _ _ => Raise TypeError;
   MACD := fun close =>
     Ok (map (fun _ => nan) close, map (fun _ => nan) close) |}.
End FrameSamples.

(** ** The dashboard: ticker, price shown and valuation view *)

Module Valuation.
Import Dcf.

(** [s.endswith(suffix)] *)
Definition ends_with (s suffix : string) : bool :=
  (String.length suffix <=? String.length s)%nat
  && String.eqb
       (String.substring (String.length s - String.length suffix)
          (String.length suffix) s)
       suffix.

(** The ticker the dashboard analyses: the exchange suffix is appended
    for the two Korean markets unless the input already ends with it.
    (The input has been upper-cased before.) *)
Definition resolve_ticker (market ticker_input : string) : string :=
  let ticker := ticker_input in
  if String.eqb market "Korea (KOSPI)" then
    if negb (ends_with ticker ".KS") then ticker ++ ".KS" else ticker
  else if String.eqb market "Korea (KOSDAQ)" then
    if negb (ends_with ticker ".KQ") then ticker ++ ".KQ" else ticker
  else ticker.

(** Truth value of a number or [None]: a number is true unless it is
    zero (NaN is true). *)
Definition num_truthy (v : value num) : bool :=
  match v with
  | VNone => false
  | VNum n => negb (num_val n =? 0)%float
  end.

(** [v or 0] *)
Definition or_zero (v : value num) : value num :=
  if num_truthy v then v else int 0.

(** What the valuation view ends in. *)
Inductive dcf_view : Type :=
| NoInfo
| Insufficient
| Crash (e : exn)
| Computed (intrinsic_value : value num).

(** The valuation view once the form is submitted: the guard on the
    profile, net debt, the percentages (Python floats from the number
    inputs) turned into rates, and the call of [calculate_dcf]. *)
Definition valuation_view (R : runtime)
    (info : option (gmap string (value num)))
    (growth_rate_input terminal_rate_input discount_rate_input : float)
  : dcf_view :=
  match info with
  | None => NoInfo
  | Some info =>
    if bool_decide (info = ∅) then NoInfo
    else
      let fcf := dict_get info "freeCashFlow" in
      let shares := dict_get info "sharesOutstanding" in
      let total_debt := dict_get info "totalDebt" in
      let total_cash := dict_get info "totalCash" in
      if num_truthy fcf && num_truthy shares then
        match py_sub (or_zero total_debt) (or_zero total_cash) with
        | Ok net_debt =>
          let g_rate := (growth_rate_input / 100)%float in
          let t_rate := (terminal_rate_input / 100)%float in
          let d_rate := (discount_rate_input / 100)%float in
          Computed (calculate_dcf R fcf (py g_rate) (py d_rate) (py t_rate)
                      shares net_debt)
        | Raise e => Crash e
        end
      else Insufficient
  end.

(** [info.get('currentPrice') or info.get('regularMarketPrice') or
    'N/A'], computed only [if info]; [None] stands for ['N/A']. *)
Definition display_price (info : option (gmap string (value float)))
  : option (value float) :=
  match info with
  | None => None
  | Some info =>
    if bool_decide (info = ∅) then None
    else
      let current := dict_get info "currentPrice" in
      if F.truthy current then Some current
      else
        let regular := dict_get info "regularMarketPrice" in
        if F.truthy regular then Some regular else None
  end.
End Valuation.

Module ValuationSamples.
Import Dcf.

(** A profile as [fetch_stock_info] leaves it when the free cash flow
    came from the cash-flow table: a numpy free cash flow of 100, 10
    shares, debt 70, no cash entry. *)
Definition profile_table : gmap string (value num) :=
<["freeCashFlow" := np 100]>
  (<["sharesOutstanding" := py 10]>
     (<["totalDebt" := py 70]> ∅)).
End ValuationSamples.

(** * Properties *)

(** ** calculate_wacc *)

Module WaccFacts.
Import F Wacc Samples.
Local Open Scope float_scope.

Lemma truthy_zero (v : value float) x :
  v = VNum x -> (x =? 0) = true -> truthy v = false.
Proof. intros -> H. unfold truthy, nonzero. by rewrite H. Qed.

Lemma truthy_nonzero (v : value float) x :
  v = VNum x -> (x =? 0) = false -> truthy v = true.
Proof. intros -> H. unfold truthy, nonzero. by rewrite H. Qed.

(** The cost of debt never raises: the division is guarded by
    [total_debt] being truthy. *)
Lemma cost_of_debt_total (total_debt : value float) ie :
  exists cd,
    (if truthy total_debt then
       td ← num total_debt;
       if (0 <? td) && (0 <? ie) then F.div ie td else Ok 0.045
     else Ok 0.045) = Ok cd.
Proof.
  destruct total_debt as [|td]; cbn; [by eexists|].
  unfold nonzero, F.div.
  destruct (td =? 0) eqn:Hz; cbn; [by eexists|].
  destruct ((0 <? td) && (0 <? ie)); by eexists.
Qed.

(** A falsy market capitalisation makes the whole result unavailable,
    whatever else the profile and the income statement hold. *)
Lemma falsy_market_cap_unavailable info fin :
  truthy (dict_get info "marketCap") = false ->
  calculate_wacc info fin = unavailable.
Proof.
  intros Hmc. unfold calculate_wacc, wacc_body.
  destruct (dict_get info "beta") as [|b]; [done|].
  destruct fin as [t|e]; cbn; [|done].
  destruct (cost_of_debt_total (dict_get info "totalDebt")
              (interest_expense_of t)) as [cd ->].
  cbn. by rewrite Hmc.
Qed.

(** C10: a market capitalisation that is present and zero gives the
    all-unavailable result, the same result as a null one. *)
Theorem wacc_zero_market_cap_unavailable info info' fin fin' mc :
  dict_get info "beta" <> VNone ->
  dict_get info "marketCap" = VNum mc ->
  (mc =? 0) = true ->
  dict_get info' "marketCap" = VNone ->
  calculate_wacc info fin = unavailable /\
  calculate_wacc info fin = calculate_wacc info' fin'.
Proof.
  intros _ Hmc Hz Hnull.
  assert (calculate_wacc info fin = unavailable) as ->.
  { apply falsy_market_cap_unavailable. by eapply truthy_zero. }
  split; [done|]. symmetry.
  apply falsy_market_cap_unavailable. by rewrite Hnull.
Qed.

Lemma wacc_zero_market_cap_unavailable_witness :
  calculate_wacc profile_zero_cap (Ok income_statement) = unavailable /\
  calculate_wacc profile_zero_cap (Ok income_statement)
  = calculate_wacc profile_no_cap (Raise ProviderError).
Proof.
  apply (wacc_zero_market_cap_unavailable profile_zero_cap profile_no_cap
           (Ok income_statement) (Raise ProviderError) 0).
  - vm_compute. discriminate.
  - vm_compute. reflexivity.
  - vm_compute. reflexivity.
  - vm_compute. reflexivity.
Defined.

(** C3: with beta and a non-zero market capitalisation present, and
    total debt null or zero, the result is
    [(cost_of_equity, cost_of_equity, 0.0)]: the blended formula is not
    applied. *)
Theorem wacc_all_equity info (t : DataFrame) b mc td :
  dict_get info "beta" = VNum b ->
  dict_get info "marketCap" = VNum mc ->
  (mc =? 0) = false ->
  dict_get info "totalDebt" = VNone \/
  (dict_get info "totalDebt" = VNum td /\ (td =? 0) = true) ->
  calculate_wacc info (Ok t)
  = (VNum (risk_free_rate + b * equity_risk_premium),
     VNum (risk_free_rate + b * equity_risk_premium),
     VNum 0).
Proof.
  intros Hb Hmc Hnz Htd.
  assert (truthy (dict_get info "totalDebt") = false) as Hfalsy.
  { destruct Htd as [->|[Htd Hz]]; [done|]. by eapply truthy_zero. }
  unfold calculate_wacc, wacc_body. rewrite Hb.
  cbn [mbind result_bind]. rewrite Hfalsy.
  rewrite (truthy_nonzero _ _ Hmc Hnz). done.
Qed.

Lemma wacc_all_equity_witness :
  calculate_wacc profile_no_debt (Ok income_statement)
  = (VNum (risk_free_rate + 1.2 * equity_risk_premium),
     VNum (risk_free_rate + 1.2 * equity_risk_premium),
     VNum 0).
Proof.
  apply (wacc_all_equity profile_no_debt income_statement 1.2 1000 0).
  - vm_compute. reflexivity.
  - vm_compute. reflexivity.
  - vm_compute. reflexivity.
  - right. split; vm_compute; reflexivity.
Defined.

Lemma truthy_num (v : value float) :
  truthy v = true -> exists x, v = VNum x /\ (x =? 0) = false.
Proof.
  destruct v as [|x]; [done|]. unfold truthy, nonzero.
  destruct (x =? 0) eqn:Hz; [done|]. by exists x.
Qed.

Lemma VNum_float_inj (x y : float) : VNum x = VNum y -> x = y.
Proof.
  intros H.
  exact (f_equal (fun v => match v with VNum z => z | VNone => x end) H).
Qed.

(** Two floats that the comparison [<?] separates are different. *)
Lemma float_lt_neq (x y : float) : (x <? y) = true -> (y <? y) = false -> y <> x.
Proof. intros Hlt Hirr ->. congruence. Qed.

(** C4, amended: whenever the weighting can be carried out, the cost
    of equity returned is [0.0425 + beta * 0.05] evaluated in binary64.
    For [beta = 1.2] that value is [0x1.a3d70a3d70a3ep-4], printed
    0.10250000000000001 by Python: one unit in the last place above
    the float [0.1025], not equal to it. *)
Theorem wacc_cost_of_equity_capm info (t : DataFrame) b :
  dict_get info "beta" = VNum b ->
  weights_ok info = true ->
  cost_of_equity_of (calculate_wacc info (Ok t))
  = VNum (risk_free_rate + b * equity_risk_premium) /\
  (b = 1.2 ->
   cost_of_equity_of (calculate_wacc info (Ok t)) = VNum 0x1.a3d70a3d70a3ep-4 /\
   0x1.a3d70a3d70a3ep-4 = next_up 0.1025 /\
   cost_of_equity_of (calculate_wacc info (Ok t)) <> VNum 0.1025).
Proof.
  intros Hb Hw.
  assert (cost_of_equity_of (calculate_wacc info (Ok t))
          = VNum (risk_free_rate + b * equity_risk_premium)) as Hcoe.
  { unfold weights_ok in Hw. apply andb_prop in Hw as [Hmc Hw].
    unfold calculate_wacc, wacc_body. rewrite Hb. cbn [mbind result_bind].
    destruct (cost_of_debt_total (dict_get info "totalDebt")
                (interest_expense_of t)) as [cd ->].
    cbn [mbind result_bind]. rewrite Hmc. cbn [negb].
    destruct (truthy (dict_get info "totalDebt")) eqn:Htd; [|done].
    cbn [negb orb] in *.
    apply truthy_num in Hmc as (mc & Emc & _).
    apply truthy_num in Htd as (td & Etd & _).
    rewrite Emc, Etd in *. cbn [num mbind result_bind].
    unfold F.div. destruct (mc + td =? 0); [done|]. done. }
  split; [exact Hcoe|]. intros ->. rewrite Hcoe.
  split; [vm_compute; reflexivity|]. split; [vm_compute; reflexivity|].
  intros H. apply VNum_float_inj in H.
  apply (float_lt_neq 0.1025 (risk_free_rate + 1.2 * equity_risk_premium));
    [vm_compute; reflexivity | vm_compute; reflexivity | exact H].
Qed.

Lemma wacc_cost_of_equity_capm_witness :
  cost_of_equity_of (calculate_wacc profile_no_debt (Ok income_statement))
  = VNum (risk_free_rate + 1.2 * equity_risk_premium) /\
  (1.2 = 1.2 ->
   cost_of_equity_of (calculate_wacc profile_no_debt (Ok income_statement))
   = VNum 0x1.a3d70a3d70a3ep-4 /\
   0x1.a3d70a3d70a3ep-4 = next_up 0.1025 /\
   cost_of_equity_of (calculate_wacc profile_no_debt (Ok income_statement))
   <> VNum 0.1025).
Proof.
  apply (wacc_cost_of_equity_capm profile_no_debt income_statement 1.2).
  - vm_compute. reflexivity.
  - vm_compute. reflexivity.
Defined.

(** C4 as stated fails on the exactness: for [beta = 1.2] the cost of
    equity returned is not the float [0.1025]. *)
Lemma wacc_cost_of_equity_not_exact :
  dict_get profile_no_debt "beta" = VNum 1.2 /\
  cost_of_equity_of (calculate_wacc profile_no_debt (Ok income_statement))
  = VNum 0x1.a3d70a3d70a3ep-4 /\
  cost_of_equity_of (calculate_wacc profile_no_debt (Ok income_statement))
  <> VNum 0.1025.
Proof.
  split; [vm_compute; reflexivity|].
  assert (cost_of_equity_of
            (calculate_wacc profile_no_debt (Ok income_statement))
          = VNum 0x1.a3d70a3d70a3ep-4) as E by (vm_compute; reflexivity).
  split; [exact E|]. rewrite E. intros H. apply VNum_float_inj in H.
  apply (float_lt_neq 0.1025 0x1.a3d70a3d70a3ep-4);
    [vm_compute; reflexivity | vm_compute; reflexivity | exact H].
Qed.
End WaccFacts.

(** ** fetch_stock_info *)

Module NormalizeFacts.
Import F Normalize NormalizeView Samples.
Local Open Scope float_scope.

Lemma lookup_fill (key k : string) (del : bool) (src : option (value float))
    (info : gmap string (value float)) :
  (if missing info key then
     match src with
     | Some v => <[key := v]> (if del then delete key info else info)
     | None => if del then delete key info else info
     end
   else info) !! k
  = if decide (k = key) then fill_at del src (info !! key) else info !! k.
Proof.
  unfold missing, fill_at. case_decide as Hk.
  - subst k. destruct (info !! key) as [[|x]|] eqn:E; try done;
      destruct src, del; by simplify_map_eq.
  - destruct (info !! key) as [[|x]|] eqn:E; try done;
      destruct src, del; by simplify_map_eq.
Qed.

Lemma lookup_update_shares p info k :
  update_shares p info !! k
  = if decide (k = "sharesOutstanding")
    then fill_at false (shares_src p) (info !! "sharesOutstanding")
    else info !! k.
Proof.
  rewrite <- lookup_fill. f_equal. unfold update_shares, shares_src.
  destruct (missing _ _); [|done].
  destruct (fast_info_get p "shares") as [sh|]; [|done]. by destruct (truthy sh).
Qed.

Lemma lookup_update_fcf p info k :
  update_fcf p info !! k
  = if decide (k = "freeCashFlow")
    then fill_at false (fcf_src p) (info !! "freeCashFlow")
    else info !! k.
Proof.
  rewrite <- lookup_fill. f_equal. unfold update_fcf, fcf_src.
  destruct (missing _ _); [|done].
  destruct (cashflow p) as [cf|]; [|done]. by destruct (extract_fcf cf).
Qed.

Lemma lookup_update_total_debt p info k :
  update_total_debt p info !! k
  = if decide (k = "totalDebt")
    then fill_at true (debt_src p) (info !! "totalDebt")
    else info !! k.
Proof.
  rewrite <- lookup_fill. f_equal. unfold update_total_debt, debt_src.
  destruct (missing _ _); [|done].
  destruct (balance_sheet p) as [bs|]; [|done]. by destruct (first_row bs _ _).
Qed.

Lemma lookup_update_total_cash p info k :
  update_total_cash p info !! k
  = if decide (k = "totalCash")
    then fill_at false (cash_src p) (info !! "totalCash")
    else info !! k.
Proof.
  rewrite <- lookup_fill. f_equal. unfold update_total_cash, cash_src.
  destruct (missing _ _); [|done].
  destruct (balance_sheet p) as [bs|]; [|done]. by destruct (first_row bs _ _).
Qed.

Lemma update_price_src p info :
  update_price p info
  = match price_src p with
    | Some v => set_price v info
    | None => info
    end.
Proof.
  unfold update_price, price_src.
  destruct (fast_info_get p "last_price") as [lp|]; [|done].
  cbn [mbind result_bind]. destruct (truthy lp); [done|].
  destruct (history_close p) as [recent|]; [|done].
  cbn [mbind result_bind]. by destruct (last recent).
Qed.

Lemma lookup_update_price p info k :
  update_price p info !! k
  = if decide (k = "regularMarketPrice")
    then overwrite_at (price_src p) (info !! k)
    else if decide (k = "currentPrice")
    then overwrite_at (price_src p) (info !! k)
    else info !! k.
Proof.
  rewrite update_price_src. unfold overwrite_at, set_price.
  destruct (price_src p) as [v|]; repeat case_decide; by simplify_map_eq.
Qed.

Lemma lookup_normalize p info k :
  normalize p info !! k = normalize_at p k (info !! k).
Proof.
  unfold normalize, normalize_at.
  rewrite !lookup_update_total_cash, !lookup_update_total_debt,
    !lookup_update_fcf, !lookup_update_shares, !lookup_update_price.
  repeat case_decide; by simplify_eq.
Qed.

Lemma fill_at_idemp del src o :
  fill_at del src (fill_at del src o) = fill_at del src o.
Proof. by destruct o as [[|x]|], src as [[|y]|], del. Qed.

Lemma overwrite_at_idemp src o :
  overwrite_at src (overwrite_at src o) = overwrite_at src o.
Proof. by destruct src. Qed.

(** C7: normalisation is idempotent.  With the provider's answers held
    fixed, normalising an already normalised profile changes nothing. *)
Theorem normalize_idempotent p info :
  normalize p (normalize p info) = normalize p info.
Proof.
  apply map_eq. intros k. rewrite !lookup_normalize. unfold normalize_at.
  repeat case_decide; auto using fill_at_idemp, overwrite_at_idemp.
Qed.
Lemma Some_VNum_float_inj (x y : float) :
  Some (VNum x) = Some (VNum y) -> x = y.
Proof.
  intros H.
  exact (f_equal (fun o => match o with Some (VNum z) => z | _ => x end) H).
Qed.

(** C6, amended: the four guarded fields keep a value that is present
    and not [None].  The two price fields are not guarded: both take
    the fast quote when it can be read and is truthy; when it can be
    read and is [None] or zero, both take the last close of the recent
    history if that history can be read and is not empty; in every
    other case (reading the fast quote or the history raises, or the
    history is empty) both keep what they held. *)
Theorem normalize_keeps_guarded_fields p info :
  (forall k x,
     k ∈ ["sharesOutstanding"; "freeCashFlow"; "totalDebt"; "totalCash"] ->
     info !! k = Some (VNum x) ->
     normalize p info !! k = Some (VNum x)) /\
  (forall k,
     k ∈ ["currentPrice"; "regularMarketPrice"] ->
     normalize p info !! k
     = match fast_info_get p "last_price" with
       | Ok last_price =>
         if truthy last_price then Some last_price
         else match history_close p with
              | Ok recent =>
                match last recent with
                | Some close => Some (VNum close)
                | None => info !! k
                end
              | Raise _ => info !! k
              end
       | Raise _ => info !! k
       end).
Proof.
  split.
  - intros k x Hk Hx. rewrite lookup_normalize, Hx. unfold normalize_at.
    repeat (apply elem_of_cons in Hk as [->|Hk]; [by repeat case_decide|]).
    by apply elem_of_nil in Hk.
  - intros k Hk. rewrite lookup_normalize.
    assert (normalize_at p k (info !! k)
            = overwrite_at (price_src p) (info !! k)) as ->.
    { unfold normalize_at.
      repeat (apply elem_of_cons in Hk as [->|Hk]; [by repeat case_decide|]).
      by apply elem_of_nil in Hk. }
    unfold overwrite_at, price_src.
    destruct (fast_info_get p "last_price") as [last_price|]; [|done].
    destruct (truthy last_price); [done|].
    destruct (history_close p) as [recent|]; [|done].
    by destruct (last recent).
Qed.

(** A snapshot with a share count of 500 and a price of 100, and a
    provider whose fast quote is 101: the share count stays, both price
    fields become 101. *)
Lemma normalize_keeps_guarded_fields_witness :
  normalize (provider_of (VNum 101) (VNum 999) cf_fallback) snapshot_priced
    !! "sharesOutstanding" = Some (VNum 500) /\
  normalize (provider_of (VNum 101) (VNum 999) cf_fallback) snapshot_priced
    !! "currentPrice" = Some (VNum 101) /\
  normalize (provider_of (VNum 101) (VNum 999) cf_fallback) snapshot_priced
    !! "regularMarketPrice" = Some (VNum 101).
Proof.
  pose proof (normalize_keeps_guarded_fields
                (provider_of (VNum 101) (VNum 999) cf_fallback)
                snapshot_priced) as [Hguarded Hprice].
  split; [|split].
  - apply (Hguarded "sharesOutstanding" 500).
    + apply elem_of_cons. by left.
    + vm_compute. reflexivity.
  - rewrite (Hprice "currentPrice"); [reflexivity|].
    apply elem_of_cons. by left.
  - rewrite (Hprice "regularMarketPrice"); [reflexivity|].
    apply elem_of_cons. right. apply elem_of_cons. by left.
Defined.

(** C6 as stated fails for the price: a snapshot that enters with
    [currentPrice = 100] leaves with the fast quote [101]. *)
Lemma normalize_overwrites_price :
  snapshot_priced !! "currentPrice" = Some (VNum 100) /\
  normalize (provider_of (VNum 101) (VNum 999) cf_fallback) snapshot_priced
    !! "currentPrice" = Some (VNum 101) /\
  normalize (provider_of (VNum 101) (VNum 999) cf_fallback) snapshot_priced
    !! "currentPrice" <> snapshot_priced !! "currentPrice".
Proof.
  assert (snapshot_priced !! "currentPrice" = Some (VNum 100)) as E0
    by (vm_compute; reflexivity).
  assert (normalize (provider_of (VNum 101) (VNum 999) cf_fallback)
            snapshot_priced !! "currentPrice" = Some (VNum 101)) as E1
    by (vm_compute; reflexivity).
  split; [exact E0|]. split; [exact E1|]. rewrite E0, E1.
  intros H. apply Some_VNum_float_inj in H.
  assert ((101 =? 100) = true) as Heq by (by rewrite H).
  vm_compute in Heq. discriminate Heq.
Qed.

(** The loop on the "Free Cash Flow" row returns the first value, in
    column order, that is neither NaN nor zero. *)
Lemma scan_free_cash_flow_first cf cols v :
  scan_free_cash_flow cf cols = Some v <->
  exists pre col post,
    cols = (pre ++ col :: post)%list /\
    Forall (fun c => notna (df_loc cf "Free Cash Flow" c)
                     && nonzero (df_loc cf "Free Cash Flow" c) = false) pre /\
    notna (df_loc cf "Free Cash Flow" col)
    && nonzero (df_loc cf "Free Cash Flow" col) = true /\
    v = df_loc cf "Free Cash Flow" col.
Proof.
  induction cols as [|c cols IH]; cbn [scan_free_cash_flow].
  - split; [done|]. intros (pre & col & post & E & _). by destruct pre.
  - destruct (notna _ && nonzero _) eqn:Hc.
    + split.
      * intros Hv. exists [], c, cols. repeat split; try done.
        exact (Some_inj _ _ (eq_sym Hv)).
      * intros (pre & col & post & E & Hpre & Hcol & ->).
        destruct pre as [|c' pre]; cbn in E.
        -- by injection E as -> _.
        -- injection E as -> _. apply Forall_cons in Hpre as [Hc' _].
           congruence.
    + rewrite IH. split.
      * intros (pre & col & post & -> & Hpre & Hcol & ->).
        exists (c :: pre), col, post. repeat split; try done.
        by apply Forall_cons.
      * intros (pre & col & post & E & Hpre & Hcol & ->).
        destruct pre as [|c' pre]; cbn in E.
        -- injection E as -> _. congruence.
        -- injection E as -> ->. apply Forall_cons in Hpre as [_ Hpre].
           by exists pre, col, post.
Qed.

(** The code and the reading with an unconditional fallback agree
    whenever the table has no "Free Cash Flow" row, or the row holds a
    usable value. *)
Lemma extract_fcf_agrees cf :
  in_index "Free Cash Flow" cf = false \/
  is_Some (scan_free_cash_flow cf (seq 0 (df_columns cf))) ->
  extract_fcf cf = spec_extract_fcf cf.
Proof.
  unfold extract_fcf, spec_extract_fcf.
  intros [Hrow|[v Hv]]; destruct (df_empty cf); cbn [negb]; try done.
  - by rewrite Hrow.
  - rewrite Hv. by destruct (in_index "Free Cash Flow" cf).
Qed.

(** The fallback of the specification's example: no "Free Cash Flow"
    row, operating cash flow 100 and capital expenditure -30 in the most
    recent period give a free cash flow of 70. *)
Lemma fcf_fallback_example :
  normalize (provider_of VNone VNone cf_fallback) ∅ !! "freeCashFlow"
  = Some (VNum 70).
Proof. vm_compute. reflexivity. Qed.

(** C5, the code at the diverging input: the "Free Cash Flow" row is
    present and holds only NaN, operating cash flow is 100 and capital
    expenditure is -30.  The [elif] is not entered, [freeCashFlow] stays
    absent; the reading with the fallback gives 70. *)
Theorem fcf_fallback_skipped :
  missing (∅ : gmap string (value float)) "freeCashFlow" = true /\
  normalize (provider_of VNone VNone cf_unusable_row) ∅ !! "freeCashFlow"
  = None /\
  extract_fcf cf_unusable_row = None /\
  spec_extract_fcf cf_unusable_row = Some 70.
Proof. repeat split; vm_compute; reflexivity. Qed.
End NormalizeFacts.

(** ** calculate_dcf *)

Module DcfFacts.
Import Dcf.
Local Open Scope float_scope.

Ltac py_step :=
  cbn [py_add py_sub py_mul py_div py_pow int join is_py andb orb
       mbind result_bind num_kind num_val].

(** One year of the loop, described from the inputs. *)
Lemma discounted_fcf_outcome R fcf g d i :
  match discounted_fcf R (VNum fcf) (VNum g) (VNum d) i with
  | Ok v =>
    year_fails R fcf g d i = false /\
    v = VNum (Num (kind_of [fcf; g; d])
                (discounted R (num_val fcf) (num_val g) (num_val d) i))
  | Raise _ => year_fails R fcf g d i = true
  end.
Proof.
  destruct fcf as [kf fcf], g as [kg g], d as [kd d].
  unfold discounted_fcf, year_fails, pow_overflows, discounted, kind_of,
    all_py.
  destruct kf, kg, kd; cbn [forallb]; py_step;
    repeat match goal with
      | |- context [if ?c then _ else _] => destruct c eqn:?; py_step
      end;
    rewrite ?orb_true_r, ?orb_false_r; try done.
Qed.

Lemma future_cash_flows_outcome R fcf g d years :
  match future_cash_flows R (VNum fcf) (VNum g) (VNum d) years with
  | Ok l =>
    existsb (year_fails R fcf g d) years = false /\
    l = map (fun x => VNum (Num (kind_of [fcf; g; d]) x))
          (map (discounted R (num_val fcf) (num_val g) (num_val d)) years)
  | Raise _ => existsb (year_fails R fcf g d) years = true
  end.
Proof.
  induction years as [|i years IH]; [done|].
  cbn [future_cash_flows existsb map].
  pose proof (discounted_fcf_outcome R fcf g d i) as Hi.
  destruct (discounted_fcf R (VNum fcf) (VNum g) (VNum d) i) as [v|e];
    cbn [mbind result_bind]; [|by rewrite Hi].
  destruct Hi as [-> ->]. cbn [orb].
  destruct (future_cash_flows R (VNum fcf) (VNum g) (VNum d) years) as [l|e];
    cbn [mbind result_bind]; [|done].
  destruct IH as [-> ->]. done.
Qed.

Lemma exact_run_python (xs : list float) :
  exact_run (map (fun x => VNum (Num Py x)) xs) = (xs, []).
Proof. induction xs as [|x xs IH]; [done|]. cbn [map exact_run]. by rewrite IH. Qed.

Lemma sum_generic_numpy (a : float) (xs : list float) :
  sum_generic (VNum (Num Np a)) (map (fun x => VNum (Num Np x)) xs)
  = Ok (VNum (Num Np (fold_left PrimFloat.add xs a))).
Proof.
  revert a. induction xs as [|x xs IH]; intros a; [done|].
  cbn [map sum_generic fold_left]. py_step. apply IH.
Qed.

(** [sum] over flows of one kind. *)
Lemma py_sum_flows R k (xs : list float) :
  xs <> [] ->
  py_sum R (map (fun x => VNum (Num k x)) xs)
  = Ok (VNum (Num k (flows_total R k xs))).
Proof.
  destruct xs as [|x xs]; [done|intros _].
  destruct k; cbn [map py_sum flows_total]; py_step.
  - by rewrite exact_run_python.
  - apply sum_generic_numpy.
Qed.

Lemma year_five R fcf g d :
  existsb (year_fails R fcf g d) (seq 1 5) = false ->
  year_fails R fcf g d 5 = false.
Proof.
  cbn [seq existsb]. intros H.
  repeat (apply orb_false_iff in H as [? H]). assumption.
Qed.

(** The body of [calculate_dcf] on six numbers, described from the
    inputs. *)
Lemma dcf_body_outcome R fcf g d t s nd :
  match dcf_body R (VNum fcf) (VNum g) (VNum d) (VNum t) (VNum s) (VNum nd) with
  | Ok v =>
    dcf_fails R fcf g d t s nd = false /\
    v = VNum (dcf_value R fcf g d t s nd)
  | Raise _ => dcf_fails R fcf g d t s nd = true
  end.
Proof.
  unfold dcf_body, dcf_fails.
  pose proof (future_cash_flows_outcome R fcf g d (seq 1 5)) as Hloop.
  destruct (future_cash_flows R (VNum fcf) (VNum g) (VNum d) (seq 1 5))
    as [flows|e]; cbn [mbind result_bind]; [|by rewrite Hloop].
  destruct Hloop as [Hyears ->]. rewrite Hyears. cbn [orb].
  apply year_five in Hyears. revert Hyears.
  unfold dcf_value. rewrite py_sum_flows by done.
  destruct fcf as [kf fcf], g as [kg g], d as [kd d], t as [kt t],
    s as [ks s], nd as [kn nd].
  unfold year_fails, pow_overflows, kind_of, all_py.
  destruct kf, kg, kd, kt, ks, kn; cbn [forallb]; py_step; intros Hyear;
    repeat (apply orb_false_iff in Hyear as [Hyear ?]);
    repeat match goal with
      | H : ?c = false |- context [if ?c then _ else _] => rewrite H; py_step
      | |- context [if ?c then _ else _] => destruct c eqn:?; py_step
      end;
    rewrite ?orb_true_r, ?orb_false_r; try done.
Qed.

Lemma calculate_dcf_num R fcf g d t s nd :
  calculate_dcf R (VNum fcf) (VNum g) (VNum d) (VNum t) (VNum s) (VNum nd)
  = if dcf_fails R fcf g d t s nd then VNone
    else VNum (dcf_value R fcf g d t s nd).
Proof.
  unfold calculate_dcf. pose proof (dcf_body_outcome R fcf g d t s nd) as H.
  destruct (dcf_body _ _ _ _ _ _ _) as [v|e].
  - destruct H as [-> ->]. done.
  - by rewrite H.
Qed.

Lemma py_add_none (a : value num) : py_add a VNone = Raise TypeError.
Proof. by destruct a as [|[]]. Qed.

Lemma py_sub_none (a : value num) : py_sub a VNone = Raise TypeError.
Proof. by destruct a as [|[]]. Qed.

Lemma py_mul_none (a : value num) : py_mul a VNone = Raise TypeError.
Proof. by destruct a as [|[]]. Qed.

Lemma py_div_none (a : value num) : py_div a VNone = Raise TypeError.
Proof. by destruct a as [|[]]. Qed.

Ltac run_body :=
  repeat first
    [ progress py_step
    | progress rewrite ?py_add_none, ?py_sub_none, ?py_mul_none, ?py_div_none
    | match goal with
      | |- context [match ?v with VNone => _ | VNum _ => _ end] =>
        is_var v; destruct v as [|[[] ?]]
      | |- context [if ?c then _ else _] => destruct c
      | |- context [match ?r with Ok _ => _ | Raise _ => _ end] =>
        destruct r
      | |- context [mbind _ ?r] => destruct r
      end ].

(** A [None] among the inputs makes the body raise. *)
Lemma dcf_body_none R a b c d e f :
  VNone ∈ [a; b; c; d; e; f] -> exists err, dcf_body R a b c d e f = Raise err.
Proof.
  intros Hin.
  assert (a = VNone \/ b = VNone \/ c = VNone \/
          d = VNone \/ e = VNone \/ f = VNone) as H.
  { repeat (apply elem_of_cons in Hin as [Hin|Hin]; [auto 7|]).
    by apply elem_of_nil in Hin. }
  clear Hin. unfold dcf_body.
  generalize (future_cash_flows R a b c (seq 1 5)) as loop.
  intros loop.
  destruct H as [-> | [-> | [-> | [-> | [-> | ->]]]]]; run_body; by eexists.
Qed.

Lemma calculate_dcf_none R a b c d e f :
  VNone ∈ [a; b; c; d; e; f] -> calculate_dcf R a b c d e f = VNone.
Proof.
  intros H. unfold calculate_dcf.
  by destruct (dcf_body_none R a b c d e f H) as [err ->].
Qed.

(** The failure test read on Python numbers. *)
Lemma dcf_fails_python R (fcf g d t s nd : float) :
  dcf_fails R (Num Py fcf) (Num Py g) (Num Py d) (Num Py t) (Num Py s)
    (Num Py nd)
  = existsb (year_fails R (Num Py fcf) (Num Py g) (Num Py d)) (seq 1 5)
    || (d - t =? 0) || (s =? 0).
Proof. reflexivity. Qed.




(** C2 fails when the free cash flow is a numpy scalar, which is what
    [fetch_stock_info] stores from the cash-flow table: with equal
    rates the division by the zero spread is numpy's, nothing is
    raised, and the result is an infinity, not [None]. *)
Theorem dcf_equal_rates_numpy_cash_flow :
  calculate_dcf runtime_ref (np 70) (py 0.1) (py 0.025) (py 0.025) (py 10)
    (py 70)
  = VNum (Num Np infinity).
Proof. vm_compute. reflexivity. Qed.



End DcfFacts.

(** ** calculate_indicators *)

Module IndicatorsFacts.
Import Indicators Samples.

Lemma writes_only_refl names s : flat_at s -> writes_only names s s.
Proof. intros (n & c & E). repeat split; try done. by exists n, c, c. Qed.

Lemma writes_only_trans names s1 s2 s3 :
  writes_only names s1 s2 -> writes_only names s2 s3 ->
  writes_only names s1 s3.
Proof.
  intros (Hdf & Hoff & n & c & c' & E1 & E2 & Hc)
         (Hdf' & Hoff' & n' & c2 & c3 & E2' & E3 & Hc').
  rewrite Hdf in *. rewrite E2 in E2'. simplify_eq.
  split; [congruence|]. split.
  - intros l Hl. rewrite Hoff' by done. by apply Hoff.
  - exists n', c, c3. repeat split; try done.
    intros name Hname. rewrite Hc' by done. by apply Hc.
Qed.

Lemma writes_only_flat names s s' : writes_only names s s' -> flat_at s'.
Proof.
  intros (Hdf & _ & n & c & c' & _ & E & _). exists n, c'. by rewrite Hdf.
Qed.

Ltac in_names :=
  repeat first [apply list_elem_of_here | apply list_elem_of_further].

Ltac not_in_names :=
  let H := fresh in
  intros H;
  repeat (apply elem_of_cons in H as [H|H]; [discriminate H|]);
  by apply elem_of_nil in H.

Lemma setitem_writes_only names s name v s' :
  name ∈ names ->
  flat_at s -> setitem s name v = Ok s' -> writes_only names s s'.
Proof.
  intros Hin (n & c & E). unfold setitem. rewrite E.
  cbn [frame_columns index_len]. intros [= <-].
  unfold writes_only. cbn [st_heap st_df].
  split; [done|]. split.
  - intros l Hl. by rewrite lookup_insert_ne.
  - exists n, c, (<[name := v]> c). rewrite lookup_insert_eq.
    repeat split; try done.
    intros name' Hname'. rewrite lookup_insert_ne; [done|].
    by intros ->.
Qed.

Lemma setitem_column s name v s' :
  setitem s name v = Ok s' ->
  column_at (st_heap s') (st_df s') name = Some v.
Proof.
  unfold setitem, column_at.
  destruct (st_heap s !! st_df s) as [f|]; [|done].
  destruct (frame_columns f); [|done]. intros [= <-].
  cbn [st_heap st_df]. rewrite lookup_insert_eq.
  cbn [mbind option_bind frame_columns]. by rewrite lookup_insert_eq.
Qed.

Lemma assign_writes_only names name compute s s' :
  name ∈ names ->
  flat_at s -> assign name compute s = Ok s' -> writes_only names s s'.
Proof.
  intros Hin Hflat. unfold assign.
  destruct (getitem s "Close") as [close|]; [|done]. cbn.
  destruct (compute close) as [v|]; [|done]. cbn.
  by apply setitem_writes_only.
Qed.

Lemma new_macd_writes_only L names s s' :
  flat_at s -> new_macd L s = Ok s' -> writes_only names s s'.
Proof.
  intros (n & c & E). unfold new_macd.
  destruct (getitem s "Close") as [close|]; [|done]. cbn.
  destruct (MACD L close) as [m|]; [|done]. cbn. intros [= <-].
  repeat split; try done. by exists n, c, c.
Qed.

Lemma assign_macd_writes_only names name line s s' :
  name ∈ names ->
  flat_at s -> assign_macd name line s = Ok s' -> writes_only names s s'.
Proof.
  intros Hin Hflat. unfold assign_macd. destruct (st_macd s); [|done].
  by apply setitem_writes_only.
Qed.

Lemma squeeze_flat s : flat_at s -> squeeze s = Ok s.
Proof. intros (n & c & E). unfold squeeze. by rewrite E. Qed.

(** A block whose statements each write only columns in [names] writes
    only columns in [names], wherever it stops. *)
Lemma run_try_writes_only names stmts s :
  Forall (fun stmt => forall s1 s2,
            flat_at s1 -> stmt s1 = Ok s2 -> writes_only names s1 s2) stmts ->
  flat_at s -> writes_only names s (run_try stmts s).
Proof.
  intros Hall. revert s.
  induction Hall as [|stmt stmts Hstmt _ IH]; intros s Hflat; cbn.
  - by apply writes_only_refl.
  - destruct (stmt s) as [s'|] eqn:E; [|by apply writes_only_refl].
    pose proof (Hstmt _ _ Hflat E) as Hw.
    eapply writes_only_trans; [exact Hw|].
    apply IH. by eapply writes_only_flat.
Qed.

Lemma squeeze_writes_only names s s' :
  flat_at s -> squeeze s = Ok s' -> writes_only names s s'.
Proof.
  intros Hflat. rewrite squeeze_flat by done. intros [= <-].
  by apply writes_only_refl.
Qed.

Lemma run_try_cons_ok stmt rest s s' :
  stmt s = Ok s' -> run_try (stmt :: rest) s = run_try rest s'.
Proof. intros E. cbn [run_try]. by rewrite E. Qed.

Lemma block_after_sma20 L :
  Forall (fun stmt => forall s1 s2,
            flat_at s1 -> stmt s1 = Ok s2 ->
            writes_only ["SMA_50"; "RSI"; "MACD"; "MACD_Signal"] s1 s2)
    (drop 2 (try_block L)).
Proof.
  cbn [drop try_block].
  repeat apply Forall_cons_2; try apply Forall_nil_2; intros s1 s2 Hf E.
  - eapply assign_writes_only; [|done..]. in_names.
  - eapply assign_writes_only; [|done..]. in_names.
  - by eapply new_macd_writes_only.
  - eapply assign_macd_writes_only; [|done..]. in_names.
  - eapply assign_macd_writes_only; [|done..]. in_names.
Qed.

Lemma block_writes_indicators L :
  Forall (fun stmt => forall s1 s2,
            flat_at s1 -> stmt s1 = Ok s2 ->
            writes_only indicator_names s1 s2)
    (try_block L).
Proof.
  unfold try_block, indicator_names.
  repeat apply Forall_cons_2; try apply Forall_nil_2; intros s1 s2 Hf E.
  - by eapply squeeze_writes_only.
  - eapply assign_writes_only; [|done..]. in_names.
  - eapply assign_writes_only; [|done..]. in_names.
  - eapply assign_writes_only; [|done..]. in_names.
  - by eapply new_macd_writes_only.
  - eapply assign_macd_writes_only; [|done..]. in_names.
  - eapply assign_macd_writes_only; [|done..]. in_names.
Qed.

Lemma writes_only_column names s s' name :
  writes_only names s s' -> name ∉ names ->
  column_at (st_heap s') (st_df s') name = column_at (st_heap s) (st_df s) name.
Proof.
  intros (Hdf & _ & n & c & c' & E1 & E2 & Hc) Hname.
  unfold column_at. rewrite Hdf, E1, E2. cbn. by apply Hc.
Qed.

(** C9 as stated fails on the side effect: after the call the frame
    that was passed in holds an [SMA_20] column it did not hold before,
    so the store, and with it the input, has changed. *)
Lemma calculate_indicators_mutates_input :
  column_at one_bar 0 "SMA_20" = None /\
  column_at (calculate_indicators ta_short one_bar (Some 0%nat)).1 0 "SMA_20"
  = Some [nan] /\
  (calculate_indicators ta_short one_bar (Some 0%nat)).1 <> one_bar.
Proof.
  assert (column_at one_bar 0 "SMA_20" = None) as E0
    by (vm_compute; reflexivity).
  assert (column_at (calculate_indicators ta_short one_bar (Some 0%nat)).1
            0 "SMA_20" = Some [nan]) as E1 by (vm_compute; reflexivity).
  split; [exact E0|]. split; [exact E1|].
  intros H. rewrite H, E0 in E1. discriminate E1.
Qed.
End IndicatorsFacts.

(** ** calculate_wacc, further properties *)

Module WaccExtra.
Import F Wacc Samples MoreSamples WaccFacts.
Local Open Scope float_scope.



(** In the blended branch three numbers are returned. *)
Lemma wacc_blended_runs info (t : DataFrame) b mc td :
  dict_get info "beta" = VNum b ->
  dict_get info "marketCap" = VNum mc -> (mc =? 0) = false ->
  dict_get info "totalDebt" = VNum td -> (td =? 0) = false ->
  (mc + td =? 0) = false ->
  exists w e d, calculate_wacc info (Ok t) = (VNum w, VNum e, VNum d).
Proof.
  intros Hb Hmc Hmz Htd Htz Hsum.
  unfold calculate_wacc, wacc_body. rewrite Hb, Hmc, Htd.
  cbn [mbind result_bind truthy num]. unfold nonzero. rewrite Hmz, Htz.
  cbn [negb]. unfold F.div. rewrite Htz, Hsum.
  destruct ((0 <? td) && (0 <? interest_expense_of t));
    cbn [mbind result_bind]; by eexists _, _, _.
Qed.

Lemma wacc_available info (t : DataFrame) b :
  dict_get info "beta" = VNum b -> weights_ok info = true ->
  exists w e d, calculate_wacc info (Ok t) = (VNum w, VNum e, VNum d).
Proof.
  intros Hb Hw. unfold weights_ok in Hw. apply andb_prop in Hw as [Hmc Hw].
  apply truthy_num in Hmc as (mc & Emc & Hmz).
  destruct (truthy (dict_get info "totalDebt")) eqn:Htd.
  - apply truthy_num in Htd as (td & Etd & Htz).
    rewrite Emc, Etd in Hw. cbn [negb orb] in Hw.
    apply negb_true_iff in Hw.
    by apply (wacc_blended_runs info t b mc td).
  - unfold calculate_wacc, wacc_body. rewrite Hb.
    cbn [mbind result_bind]. rewrite Htd, Emc.
    cbn [truthy]. unfold nonzero. rewrite Hmz. cbn [negb mbind result_bind].
    by eexists _, _, _.
Qed.

Lemma wacc_unavailable_cases info fin :
  dict_get info "beta" = VNone \/ (exists e, fin = Raise e) \/
  weights_ok info = false ->
  calculate_wacc info fin = unavailable.
Proof.
  intros H. destruct (dict_get info "beta") as [|b] eqn:Hb.
  { unfold calculate_wacc, wacc_body. by rewrite Hb. }
  destruct fin as [t|e].
  2:{ unfold calculate_wacc, wacc_body. by rewrite Hb. }
  destruct H as [H|[[e H]|H]]; [done|done|].
  destruct (truthy (dict_get info "marketCap")) eqn:Hmc;
    [|by apply falsy_market_cap_unavailable].
  unfold weights_ok in H. rewrite Hmc in H. cbn [andb] in H.
  apply orb_false_iff in H as [Htd H]. apply negb_false_iff in Htd.
  pose proof Hmc as Hmc'. pose proof Htd as Htd'.
  apply truthy_num in Hmc' as (mc & Emc & Hmz).
  apply truthy_num in Htd' as (td & Etd & Htz).
  rewrite Emc, Etd in H. apply negb_false_iff in H.
  unfold calculate_wacc, wacc_body. rewrite Hb. cbn [mbind result_bind].
  destruct (cost_of_debt_total (dict_get info "totalDebt")
              (interest_expense_of t)) as [cd ->].
  cbn [mbind result_bind]. rewrite Hmc, Htd, Emc, Etd.
  cbn [negb num mbind result_bind]. unfold F.div. by rewrite H.
Qed.

(** X2: as long as the weights' divisor is not zero (whenever
    market capitalisation and total debt are both non-zero, their sum
    is non-zero too), the result is unavailable exactly when beta is
    missing, or the income statement cannot be fetched, or the market
    capitalisation is null or zero. *)
Theorem wacc_unavailable_iff info fin :
  (forall mc td,
     dict_get info "marketCap" = VNum mc -> (mc =? 0) = false ->
     dict_get info "totalDebt" = VNum td -> (td =? 0) = false ->
     (mc + td =? 0) = false) ->
  calculate_wacc info fin = unavailable <->
  dict_get info "beta" = VNone \/ (exists e, fin = Raise e) \/
  truthy (dict_get info "marketCap") = false.
Proof.
  intros Hsum.
  assert (weights_ok info = truthy (dict_get info "marketCap")) as Hw.
  { unfold weights_ok.
    destruct (truthy (dict_get info "marketCap")) eqn:Hmc; [|done].
    destruct (truthy (dict_get info "totalDebt")) eqn:Htd; [|done].
    apply truthy_num in Hmc as (mc & Emc & Hmz).
    apply truthy_num in Htd as (td & Etd & Htz).
    rewrite Emc, Etd. cbn [negb orb andb].
    by rewrite (Hsum mc td Emc Hmz Etd Htz). }
  split.
  - intros Hun. destruct (dict_get info "beta") as [|b] eqn:Hb; [by left|].
    destruct fin as [t|e]; [|right; left; by exists e].
    right; right. rewrite <- Hw.
    destruct (weights_ok info) eqn:Hok; [|done].
    destruct (wacc_available info t b Hb Hok) as (w & e & d & E).
    rewrite E in Hun. discriminate Hun.
  - intros H. apply wacc_unavailable_cases. by rewrite Hw.
Qed.

Lemma wacc_unavailable_iff_witness :
  calculate_wacc profile_debt (Ok income_statement) = unavailable <->
  dict_get profile_debt "beta" = VNone \/
  (exists e, Ok income_statement = Raise e) \/
  truthy (dict_get profile_debt "marketCap") = false.
Proof.
  apply (wacc_unavailable_iff profile_debt (Ok income_statement)).
  intros mc td Hmc _ Htd _.
  apply VNum_float_inj in Hmc. apply VNum_float_inj in Htd. subst mc td.
  vm_compute. reflexivity.
Defined.

(** X1: the result is all or nothing: either all three outputs are
    [None], or all three are numbers. *)
Theorem wacc_all_or_nothing info fin :
  calculate_wacc info fin = unavailable \/
  exists w e d, calculate_wacc info fin = (VNum w, VNum e, VNum d).
Proof.
  destruct (dict_get info "beta") as [|b] eqn:Hb;
    [left; apply wacc_unavailable_cases; by left|].
  destruct fin as [t|e];
    [|left; apply wacc_unavailable_cases; right; left; by exists e].
  destruct (weights_ok info) eqn:Hw;
    [|left; apply wacc_unavailable_cases; by right; right].
  right. by apply (wacc_available info t b).
Qed.
End WaccExtra.

(** ** fetch_stock_info, further properties *)

Module NormalizeExtra.
Import F Normalize NormalizeView Pipeline Samples MoreSamples NormalizeFacts.
Local Open Scope float_scope.

Ltac not_key Hk :=
  let E := fresh in
  intros E; apply Hk; rewrite E; unfold normalized_keys;
  repeat first [apply list_elem_of_here | apply list_elem_of_further].

(** X4: normalisation touches six keys only; every other entry of the
    snapshot (beta, market capitalisation, currency, ...) is returned
    as it came. *)
Theorem normalize_other_keys p info k :
  k ∉ normalized_keys -> normalize p info !! k = info !! k.
Proof.
  intros Hk. rewrite lookup_normalize. unfold normalize_at.
  repeat (let E := fresh in
          case_decide as E; [exfalso; revert E; not_key Hk|]).
  done.
Qed.

Lemma normalize_other_keys_witness :
  normalize (provider_of (VNum 101) (VNum 999) cf_fallback) snapshot_priced
    !! "beta" = snapshot_priced !! "beta".
Proof.
  apply (normalize_other_keys
           (provider_of (VNum 101) (VNum 999) cf_fallback) snapshot_priced
           "beta").
  unfold normalized_keys. intros H.
  repeat (apply elem_of_cons in H as [H|H]; [discriminate H|]).
  by apply elem_of_nil in H.
Defined.

Lemma normalize_at_total_debt p o :
  normalize_at p "totalDebt" o = fill_at true (debt_src p) o.
Proof. unfold normalize_at. by repeat case_decide; simplify_eq. Qed.

Lemma normalize_at_fcf p o :
  normalize_at p "freeCashFlow" o = fill_at false (fcf_src p) o.
Proof. unfold normalize_at. by repeat case_decide; simplify_eq. Qed.

Lemma normalize_at_current_price p o :
  normalize_at p "currentPrice" o = overwrite_at (price_src p) o.
Proof. unfold normalize_at. by repeat case_decide; simplify_eq. Qed.

Lemma normalize_at_market_price p o :
  normalize_at p "regularMarketPrice" o = overwrite_at (price_src p) o.
Proof. unfold normalize_at. by repeat case_decide; simplify_eq. Qed.

Lemma price_src_fast p v :
  fast_info_get p "last_price" = Ok v -> truthy v = true ->
  price_src p = Some v.
Proof. intros E Ht. unfold price_src. by rewrite E, Ht. Qed.

(** X5: a truthy fast quote is written to both price fields, whatever
    they held. *)
Theorem price_from_fast_quote p info v :
  fast_info_get p "last_price" = Ok v -> truthy v = true ->
  normalize p info !! "currentPrice" = Some v /\
  normalize p info !! "regularMarketPrice" = Some v.
Proof.
  intros E Ht. rewrite !lookup_normalize.
  rewrite normalize_at_current_price, normalize_at_market_price.
  by rewrite (price_src_fast p v E Ht).
Qed.

Lemma price_from_fast_quote_witness :
  normalize (provider_of (VNum 101) (VNum 999) cf_fallback) snapshot_priced
    !! "currentPrice" = Some (VNum 101) /\
  normalize (provider_of (VNum 101) (VNum 999) cf_fallback) snapshot_priced
    !! "regularMarketPrice" = Some (VNum 101).
Proof.
  apply (price_from_fast_quote
           (provider_of (VNum 101) (VNum 999) cf_fallback) snapshot_priced
           (VNum 101)).
  - vm_compute. reflexivity.
  - vm_compute. reflexivity.
Defined.

(** X6: when the fast quote is [None] or zero and the recent price
    history is not empty, both price fields take the close of its last
    bar. *)
Theorem price_from_history p info v recent close :
  fast_info_get p "last_price" = Ok v -> truthy v = false ->
  history_close p = Ok recent -> last recent = Some close ->
  normalize p info !! "currentPrice" = Some (VNum close) /\
  normalize p info !! "regularMarketPrice" = Some (VNum close).
Proof.
  intros E Ht Eh El. rewrite !lookup_normalize.
  rewrite normalize_at_current_price, normalize_at_market_price.
  assert (price_src p = Some (VNum close)) as ->.
  { unfold price_src. by rewrite E, Ht, Eh, El. }
  done.
Qed.

(** X7: when reading the fast quote raises, the price history is not
    consulted: both price fields keep what they held. *)
Theorem price_kept_when_quote_raises p info e :
  fast_info_get p "last_price" = Raise e ->
  normalize p info !! "currentPrice" = info !! "currentPrice" /\
  normalize p info !! "regularMarketPrice" = info !! "regularMarketPrice".
Proof.
  intros E. rewrite !lookup_normalize.
  rewrite normalize_at_current_price, normalize_at_market_price.
  assert (price_src p = None) as -> by (unfold price_src; by rewrite E).
  done.
Qed.

(** X8: after normalisation [totalDebt] is never present with the
    value [None]: a [None] entry is deleted before the balance sheet is
    read, so the key ends up absent or holding a number. *)
Theorem total_debt_never_none p info :
  normalize p info !! "totalDebt" <> Some VNone.
Proof.
  rewrite lookup_normalize, normalize_at_total_debt.
  unfold fill_at, debt_src.
  destruct (info !! "totalDebt") as [[|x]|]; try done;
    destruct (balance_sheet p) as [bs|]; try done;
    by destruct (first_row bs _ _).
Qed.

(** X9: when the fast quote, the cash-flow statement and the balance
    sheet all raise, nothing is filled in; the snapshot comes back as it
    was, less a [totalDebt] entry that held [None]. *)
Theorem normalize_provider_down p info e1 e2 e3 e4 :
  fast_info_get p "last_price" = Raise e1 ->
  fast_info_get p "shares" = Raise e2 ->
  cashflow p = Raise e3 ->
  balance_sheet p = Raise e4 ->
  normalize p info
  = if missing info "totalDebt" then delete "totalDebt" info else info.
Proof.
  intros E1 E2 E3 E4. unfold normalize.
  unfold update_price. rewrite E1. cbn [mbind result_bind].
  unfold update_shares. rewrite E2.
  assert (forall b : bool, (if b then info else info) = info) as Hif
    by (by intros []).
  rewrite Hif. unfold update_fcf. rewrite E3, Hif.
  unfold update_total_debt. rewrite E4.
  unfold update_total_cash. rewrite E4.
  by repeat match goal with |- context [if ?b then _ else _] => destruct b end.
Qed.

Lemma scan_free_cash_flow_usable cf cols v :
  scan_free_cash_flow cf cols = Some v ->
  notna v && nonzero v = true.
Proof.
  induction cols as [|c cols IH]; cbn [scan_free_cash_flow]; [done|].
  destruct (notna (df_loc cf "Free Cash Flow" c)
            && nonzero (df_loc cf "Free Cash Flow" c)) eqn:E; [|exact IH].
  intros H. by rewrite <- (Some_inj _ _ H).
Qed.

(** X10: when the cash-flow statement has a "Free Cash Flow" row, a
    missing [freeCashFlow] is either left as it was or set to a number
    that is neither NaN nor zero. *)
Theorem fcf_direct_row_usable p info cf :
  missing info "freeCashFlow" = true ->
  cashflow p = Ok cf ->
  in_index "Free Cash Flow" cf = true ->
  normalize p info !! "freeCashFlow" = info !! "freeCashFlow" \/
  exists v, normalize p info !! "freeCashFlow" = Some (VNum v) /\
            notna v = true /\ nonzero v = true.
Proof.
  intros Hm Ecf Hrow. rewrite lookup_normalize. unfold normalize_at.
  repeat (case_decide; [by simplify_eq|]). case_decide; [|done].
  unfold fcf_src, extract_fcf. rewrite Ecf, Hrow.
  unfold missing in Hm. unfold fill_at.
  destruct (df_empty cf); cbn [negb fmap option_fmap option_map].
  { left. by destruct (info !! "freeCashFlow") as [[|x]|]. }
  destruct (scan_free_cash_flow cf _) as [v|] eqn:Es;
    cbn [fmap option_fmap option_map].
  - right. exists v. apply scan_free_cash_flow_usable in Es.
    apply andb_prop in Es. split; [|done].
    by destruct (info !! "freeCashFlow") as [[|x]|].
  - left. by destruct (info !! "freeCashFlow") as [[|x]|].
Qed.

Lemma scan_ops_capex_first cf cols v :
  scan_ops_capex cf cols = Some v <->
  exists pre col post,
    cols = (pre ++ col :: post)%list /\
    Forall (fun c => notna (df_loc cf "Operating Cash Flow" c)
                     && notna (df_loc cf "Capital Expenditure" c) = false) pre /\
    notna (df_loc cf "Operating Cash Flow" col)
    && notna (df_loc cf "Capital Expenditure" col) = true /\
    v = df_loc cf "Operating Cash Flow" col
        + df_loc cf "Capital Expenditure" col.
Proof.
  induction cols as [|c cols IH]; cbn [scan_ops_capex].
  - split; [done|]. intros (pre & col & post & E & _). by destruct pre.
  - destruct (notna _ && notna _) eqn:Hc.
    + split.
      * intros Hv. exists [], c, cols. repeat split; try done.
        exact (Some_inj _ _ (eq_sym Hv)).
      * intros (pre & col & post & E & Hpre & Hcol & ->).
        destruct pre as [|c' pre]; cbn in E.
        -- by injection E as -> _.
        -- injection E as -> _. apply Forall_cons in Hpre as [Hc' _].
           congruence.
    + rewrite IH. split.
      * intros (pre & col & post & -> & Hpre & Hcol & ->).
        exists (c :: pre), col, post. repeat split; try done.
        by apply Forall_cons.
      * intros (pre & col & post & E & Hpre & Hcol & ->).
        destruct pre as [|c' pre]; cbn in E.
        -- injection E as -> _. congruence.
        -- injection E as -> ->. apply Forall_cons in Hpre as [_ Hpre].
           by exists pre, col, post.
Qed.

Lemma seq_split_at (n col : nat) :
  (col < n)%nat ->
  seq 0 n = (seq 0 col ++ col :: seq (S col) (n - S col))%list.
Proof.
  intros Hlt. replace n with (col + S (n - S col))%nat at 1 by lia.
  by rewrite seq_app.
Qed.

(** X11: on the "Free Cash Flow" row the most recent usable period
    wins: if the cells of the periods before [col] are NaN or zero and
    the cell of [col] is neither, a missing [freeCashFlow] becomes that
    cell. *)
Theorem fcf_direct_row_first_period p info cf col :
  missing info "freeCashFlow" = true ->
  cashflow p = Ok cf ->
  in_index "Free Cash Flow" cf = true ->
  (col < df_columns cf)%nat ->
  (forall c, (c < col)%nat ->
     notna (df_loc cf "Free Cash Flow" c)
     && nonzero (df_loc cf "Free Cash Flow" c) = false) ->
  notna (df_loc cf "Free Cash Flow" col)
  && nonzero (df_loc cf "Free Cash Flow" col) = true ->
  normalize p info !! "freeCashFlow"
  = Some (VNum (df_loc cf "Free Cash Flow" col)).
Proof.
  intros Hm Ecf Hrow Hcol Hpre Hok.
  rewrite lookup_normalize, normalize_at_fcf.
  assert (extract_fcf cf = Some (df_loc cf "Free Cash Flow" col)) as Hx.
  { unfold extract_fcf, df_empty. rewrite Hrow.
    destruct (df_columns cf) as [|n] eqn:En; [lia|].
    destruct (df_rows cf) as [|r rs] eqn:Er.
    { unfold in_index in Hrow. by rewrite Er in Hrow. }
    cbn [Nat.eqb orb negb]. apply scan_free_cash_flow_first.
    exists (seq 0 col), col, (seq (S col) (S n - S col)).
    split; [by apply seq_split_at|]. split; [|done].
    apply Forall_seq. intros j Hj. apply Hpre. lia. }
  unfold fcf_src. rewrite Ecf, Hx. cbn. unfold missing in Hm.
  by destruct (info !! "freeCashFlow") as [[|x]|].
Qed.

(** X12: without a "Free Cash Flow" row the most recent complete
    period wins: if every period before [col] lacks operating cash flow
    or capital expenditure and [col] has both, a missing [freeCashFlow]
    becomes their sum for [col]. *)
Theorem fcf_fallback_first_period p info cf col :
  missing info "freeCashFlow" = true ->
  cashflow p = Ok cf ->
  in_index "Free Cash Flow" cf = false ->
  in_index "Operating Cash Flow" cf = true ->
  in_index "Capital Expenditure" cf = true ->
  (col < df_columns cf)%nat ->
  (forall c, (c < col)%nat ->
     notna (df_loc cf "Operating Cash Flow" c)
     && notna (df_loc cf "Capital Expenditure" c) = false) ->
  notna (df_loc cf "Operating Cash Flow" col)
  && notna (df_loc cf "Capital Expenditure" col) = true ->
  normalize p info !! "freeCashFlow"
  = Some (VNum (df_loc cf "Operating Cash Flow" col
                + df_loc cf "Capital Expenditure" col)).
Proof.
  intros Hm Ecf Hrow Hops Hcapex Hcol Hpre Hok.
  rewrite lookup_normalize, normalize_at_fcf.
  assert (extract_fcf cf
          = Some (df_loc cf "Operating Cash Flow" col
                  + df_loc cf "Capital Expenditure" col)) as Hx.
  { unfold extract_fcf, df_empty. rewrite Hrow, Hops, Hcapex.
    destruct (df_columns cf) as [|n] eqn:En; [lia|].
    destruct (df_rows cf) as [|r rs] eqn:Er.
    { unfold in_index in Hops. by rewrite Er in Hops. }
    cbn [Nat.eqb orb negb andb]. apply scan_ops_capex_first.
    exists (seq 0 col), col, (seq (S col) (S n - S col)).
    split; [by apply seq_split_at|]. split; [|done].
    apply Forall_seq. intros j Hj. apply Hpre. lia. }
  unfold fcf_src. rewrite Ecf, Hx. cbn. unfold missing in Hm.
  by destruct (info !! "freeCashFlow") as [[|x]|].
Qed.

Lemma dict_get_normalize_beta p info :
  dict_get (normalize p info) "beta" = dict_get info "beta".
Proof.
  unfold dict_get. rewrite lookup_normalize. unfold normalize_at.
  by repeat case_decide; simplify_eq.
Qed.

Lemma dict_get_normalize_market_cap p info :
  dict_get (normalize p info) "marketCap" = dict_get info "marketCap".
Proof.
  unfold dict_get. rewrite lookup_normalize. unfold normalize_at.
  by repeat case_decide; simplify_eq.
Qed.

(** X13: normalisation cannot make up for a snapshot without beta or
    without a market capitalisation: when [stock.info] raises, or the
    snapshot has no beta, or its market capitalisation is null or zero,
    the WACC of the analysis run is unavailable, whatever else the
    provider answers. *)
Theorem analyze_wacc_unavailable p financials :
  (exists e, stock_info p = Raise e) \/
  (exists snapshot,
     stock_info p = Ok snapshot /\
     (dict_get snapshot "beta" = VNone \/
      truthy (dict_get snapshot "marketCap") = false)) ->
  calculate_wacc_ticker p financials (fetch_stock_info p) = Wacc.unavailable.
Proof.
  unfold calculate_wacc_ticker, fetch_stock_info.
  intros [[e ->]|(snapshot & -> & H)]; [done|].
  destruct H as [Hb|Hmc].
  - unfold Wacc.calculate_wacc, Wacc.wacc_body.
    by rewrite dict_get_normalize_beta, Hb.
  - apply WaccFacts.falsy_market_cap_unavailable.
    by rewrite dict_get_normalize_market_cap.
Qed.

Lemma price_from_history_witness :
  normalize (provider_history cf_two_periods) snapshot_priced
    !! "currentPrice" = Some (VNum 100.5) /\
  normalize (provider_history cf_two_periods) snapshot_priced
    !! "regularMarketPrice" = Some (VNum 100.5).
Proof.
  apply (price_from_history (provider_history cf_two_periods)
           snapshot_priced VNone [99; 100.5] 100.5); reflexivity.
Defined.

Lemma price_kept_when_quote_raises_witness :
  normalize provider_quote_raises snapshot_priced !! "currentPrice"
  = snapshot_priced !! "currentPrice" /\
  normalize provider_quote_raises snapshot_priced !! "regularMarketPrice"
  = snapshot_priced !! "regularMarketPrice".
Proof.
  apply (price_kept_when_quote_raises provider_quote_raises snapshot_priced
           ProviderError).
  reflexivity.
Defined.

Lemma normalize_provider_down_witness :
  normalize provider_down snapshot_null_debt
  = if missing snapshot_null_debt "totalDebt"
    then delete "totalDebt" snapshot_null_debt else snapshot_null_debt.
Proof.
  apply (normalize_provider_down provider_down snapshot_null_debt
           ProviderError ProviderError ProviderError ProviderError);
    reflexivity.
Defined.

Lemma fcf_direct_row_usable_witness :
  normalize (provider_history cf_two_periods) snapshot_priced
    !! "freeCashFlow" = snapshot_priced !! "freeCashFlow" \/
  exists v,
    normalize (provider_history cf_two_periods) snapshot_priced
      !! "freeCashFlow" = Some (VNum v) /\
    notna v = true /\ nonzero v = true.
Proof.
  apply (fcf_direct_row_usable (provider_history cf_two_periods)
           snapshot_priced cf_two_periods).
  - vm_compute. reflexivity.
  - reflexivity.
  - vm_compute. reflexivity.
Defined.

Lemma fcf_direct_row_first_period_witness :
  normalize (provider_history cf_two_periods) snapshot_priced
    !! "freeCashFlow"
  = Some (VNum (df_loc cf_two_periods "Free Cash Flow" 1)).
Proof.
  apply (fcf_direct_row_first_period (provider_history cf_two_periods)
           snapshot_priced cf_two_periods 1).
  - vm_compute. reflexivity.
  - reflexivity.
  - vm_compute. reflexivity.
  - cbn. lia.
  - intros c Hc. assert (c = 0%nat) as -> by lia. vm_compute. reflexivity.
  - vm_compute. reflexivity.
Defined.

Lemma fcf_fallback_first_period_witness :
  normalize (provider_history cf_fallback_two_periods) snapshot_priced
    !! "freeCashFlow"
  = Some (VNum (df_loc cf_fallback_two_periods "Operating Cash Flow" 1
                + df_loc cf_fallback_two_periods "Capital Expenditure" 1)).
Proof.
  apply (fcf_fallback_first_period (provider_history cf_fallback_two_periods)
           snapshot_priced cf_fallback_two_periods 1).
  - vm_compute. reflexivity.
  - reflexivity.
  - vm_compute. reflexivity.
  - vm_compute. reflexivity.
  - vm_compute. reflexivity.
  - cbn. lia.
  - intros c Hc. assert (c = 0%nat) as -> by lia. vm_compute. reflexivity.
  - vm_compute. reflexivity.
Defined.

Lemma analyze_wacc_unavailable_witness :
  calculate_wacc_ticker (provider_history cf_two_periods)
    (Ok income_statement) (fetch_stock_info (provider_history cf_two_periods))
  = Wacc.unavailable.
Proof.
  apply (analyze_wacc_unavailable (provider_history cf_two_periods)
           (Ok income_statement)).
  right. exists ∅. split; [reflexivity|]. left. reflexivity.
Defined.
End NormalizeExtra.

(** ** calculate_dcf, further properties *)

Module DcfExtra.
Import Dcf DcfFacts.
Local Open Scope float_scope.

Ltac in_list :=
  repeat first [apply list_elem_of_here | apply list_elem_of_further].


(** X27: with a free cash flow read from a statement table (a numpy
    scalar) and Python numbers elsewhere, no zero divisor makes the
    result [None]: it is [None] exactly when a power of one of the two
    rates overflows.  A zero spread, a zero discount factor or a zero
    share count then gives an infinity or NaN. *)
Theorem dcf_numpy_cash_flow_none_iff R (fcf g d t s nd : float) :
  calculate_dcf R (np fcf) (py g) (py d) (py t) (py s) (py nd) = VNone <->
  existsb (fun i =>
             pow_overflows R Py (1 + g) i || pow_overflows R Py (1 + d) i)
    (seq 1 5) = true.
Proof.
  unfold np, py. rewrite calculate_dcf_num.
  unfold dcf_fails, year_fails, all_py.
  cbn [forallb num_kind num_val is_py andb seq existsb].
  rewrite !orb_false_r.
  match goal with |- context [if ?c then _ else _] => by destruct c end.
Qed.

(** X28: on inputs that are [None] or Python numbers the failure
    policy holds: a [None] input, a zero spread or a zero share count
    gives [None]. *)
Theorem dcf_python_failure_returns_none R (a b c d e f : value num) :
  Forall (fun v => v = VNone \/ exists x, v = py x) [a; b; c; d; e; f] ->
  VNone ∈ [a; b; c; d; e; f] \/
  (exists x y, c = py x /\ d = py y /\ (x - y =? 0) = true) \/
  (exists x, e = py x /\ (x =? 0) = true) ->
  calculate_dcf R a b c d e f = VNone.
Proof.
  intros Hpy H.
  apply Forall_cons in Hpy as [[->|[fcf ->]] Hpy];
    [apply calculate_dcf_none; in_list|].
  apply Forall_cons in Hpy as [[->|[g ->]] Hpy];
    [apply calculate_dcf_none; in_list|].
  apply Forall_cons in Hpy as [[->|[dr ->]] Hpy];
    [apply calculate_dcf_none; in_list|].
  apply Forall_cons in Hpy as [[->|[t ->]] Hpy];
    [apply calculate_dcf_none; in_list|].
  apply Forall_cons in Hpy as [[->|[s ->]] Hpy];
    [apply calculate_dcf_none; in_list|].
  apply Forall_cons in Hpy as [[->|[nd ->]] _];
    [apply calculate_dcf_none; in_list|].
  unfold py in *. rewrite calculate_dcf_num, dcf_fails_python.
  destruct H as [H|[(x & y & Hx & Hy & Hz)|(x & Hx & Hz)]].
  - repeat (apply elem_of_cons in H as [H|H]; [discriminate H|]).
    by apply elem_of_nil in H.
  - simplify_eq. by rewrite Hz, orb_true_r.
  - simplify_eq. by rewrite Hz, orb_true_r.
Qed.

Lemma dcf_python_failure_returns_none_witness :
  calculate_dcf runtime_ref (py 100) (py 0.1) (py 0.025) (py 0.025) (py 10)
    (py 50) = VNone.
Proof.
  apply (dcf_python_failure_returns_none runtime_ref (py 100) (py 0.1)
           (py 0.025) (py 0.025) (py 10) (py 50)).
  - repeat (apply Forall_cons_2; [right; by eexists|]). apply Forall_nil_2.
  - right; left. exists 0.025, 0.025. repeat split.
Defined.
End DcfExtra.

(** ** calculate_indicators, further properties *)

Module IndicatorsExtra.
Import Indicators Samples FrameSamples IndicatorsFacts Dashboard.
Local Open Scope float_scope.

Lemma run_try_cons_raise stmt rest s e :
  stmt s = Raise e -> run_try (stmt :: rest) s = s.
Proof. intros E. cbn [run_try]. by rewrite E. Qed.

Lemma flat_not_empty_run L h l n c :
  h !! l = Some {| index_len := n; frame_columns := Flat c |} ->
  frame_empty {| index_len := n; frame_columns := Flat c |} = false ->
  calculate_indicators L h (Some l)
  = (st_heap (run_try (try_block L)
                {| st_heap := h; st_df := l; st_macd := None |}),
     Some (st_df (run_try (try_block L)
                    {| st_heap := h; st_df := l; st_macd := None |}))).
Proof. intros Hl He. unfold calculate_indicators. by rewrite Hl, He. Qed.

(** X18: on a single-level frame without a [Close] column the lookup
    raises inside the [try], nothing has been written yet, and the call
    returns the frame it was given with the store unchanged, whatever
    the library would compute. *)
Theorem indicators_without_close L h l n c :
  h !! l = Some {| index_len := n; frame_columns := Flat c |} ->
  c !! "Close" = None ->
  calculate_indicators L h (Some l) = (h, Some l).
Proof.
  intros Hl Hclose. unfold calculate_indicators. rewrite Hl.
  destruct (frame_empty _); [done|].
  set (s0 := {| st_heap := h; st_df := l; st_macd := None |}).
  assert (flat_at s0) as Hflat by (by exists n, c).
  unfold try_block. rewrite (run_try_cons_ok _ _ _ _ (squeeze_flat s0 Hflat)).
  rewrite (run_try_cons_raise _ _ _ KeyError); [done|].
  unfold assign, getitem. cbn [st_heap st_df s0]. rewrite Hl.
  cbn [frame_columns]. by rewrite Hclose.
Qed.

(** X19: a frame with two-level columns is never written to: every
    frame that was in the store, the input included, is the same after
    the call; the reference returned is the input's, or that of a frame
    that did not exist before (the cross-section). *)
Theorem indicators_multi_index_no_mutation L h l n levels1 c :
  h !! l = Some {| index_len := n; frame_columns := Multi levels1 c |} ->
  (forall l', is_Some (h !! l') ->
     (calculate_indicators L h (Some l)).1 !! l' = h !! l') /\
  ((calculate_indicators L h (Some l)).2 = Some l \/
   exists l', (calculate_indicators L h (Some l)).2 = Some l' /\
              h !! l' = None).
Proof.
  intros Hl. unfold calculate_indicators. rewrite Hl.
  destruct (frame_empty _); [by split; [|left]|].
  set (s0 := {| st_heap := h; st_df := l; st_macd := None |}).
  cbn [fst snd].
  destruct (squeeze s0) as [s1|e] eqn:Hsq.
  2:{ unfold try_block. rewrite (run_try_cons_raise _ _ _ e Hsq).
      by split; [|left]. }
  unfold try_block. rewrite (run_try_cons_ok _ _ _ _ Hsq).
  assert (exists c',
            s1 = {| st_heap :=
                      <[fresh (dom h) :=
                          {| index_len := n; frame_columns := Flat c' |}]> h;
                    st_df := fresh (dom h); st_macd := None |}) as [c' ->].
  { revert Hsq. unfold squeeze. cbn [st_heap st_df s0]. rewrite Hl.
    cbn [frame_columns index_len].
    destruct levels1 as [|k ks]; [done|]. cbn [mbind result_bind].
    destruct (xs k c) as [c'|]; [|done]. cbn [mbind result_bind].
    intros [= <-]. by exists c'. }
  set (l1 := fresh (dom h)).
  assert (h !! l1 = None) as Hfresh.
  { apply not_elem_of_dom. apply is_fresh. }
  set (s1 := {| st_heap := _; st_df := l1; st_macd := None |}).
  assert (flat_at s1) as Hflat1.
  { exists n, c'. cbn [s1 st_heap st_df]. by rewrite lookup_insert_eq. }
  pose proof (block_writes_indicators L) as Hall.
  unfold try_block in Hall. apply Forall_cons in Hall as [_ Hall].
  pose proof (run_try_writes_only _ _ _ Hall Hflat1)
    as (Hdf & Hoff & _).
  change (st_df s1) with l1 in *. split.
  - intros l' [f' Hf']. rewrite Hoff.
    + cbn [s1 st_heap]. rewrite lookup_insert_ne; [done|]. congruence.
    + congruence.
  - right. exists l1. by rewrite Hdf.
Qed.

Lemma getitem_flat s n c name col :
  st_heap s !! st_df s = Some {| index_len := n; frame_columns := Flat c |} ->
  c !! name = Some col ->
  getitem s name = Ok col.
Proof. intros E Hc. unfold getitem. rewrite E. cbn. by rewrite Hc. Qed.

Lemma setitem_flat h l m n c name v :
  h !! l = Some {| index_len := n; frame_columns := Flat c |} ->
  setitem {| st_heap := h; st_df := l; st_macd := m |} name v
  = Ok {| st_heap :=
            <[l := {| index_len := n;
                      frame_columns := Flat (<[name := v]> c) |}]> h;
          st_df := l; st_macd := m |}.
Proof. intros E. unfold setitem. cbn [st_heap st_df st_macd]. by rewrite E. Qed.

Lemma assign_flat h l m n c name compute close v :
  h !! l = Some {| index_len := n; frame_columns := Flat c |} ->
  c !! "Close" = Some close ->
  compute close = Ok v ->
  assign name compute {| st_heap := h; st_df := l; st_macd := m |}
  = Ok {| st_heap :=
            <[l := {| index_len := n;
                      frame_columns := Flat (<[name := v]> c) |}]> h;
          st_df := l; st_macd := m |}.
Proof.
  intros E Hclose Hv. unfold assign.
  rewrite (getitem_flat _ n c "Close" close) by done.
  cbn [mbind result_bind]. rewrite Hv. cbn [mbind result_bind].
  by apply setitem_flat.
Qed.

Lemma assign_flat_raise h l m n c name compute close e :
  h !! l = Some {| index_len := n; frame_columns := Flat c |} ->
  c !! "Close" = Some close ->
  compute close = Raise e ->
  assign name compute {| st_heap := h; st_df := l; st_macd := m |} = Raise e.
Proof.
  intros E Hclose Hv. unfold assign.
  rewrite (getitem_flat _ n c "Close" close) by done.
  cbn [mbind result_bind]. by rewrite Hv.
Qed.

Ltac close_kept :=
  repeat (rewrite lookup_insert_ne by discriminate); eassumption.

Lemma run_try_assign_ok rest h l m n c name compute close v :
  h !! l = Some {| index_len := n; frame_columns := Flat c |} ->
  c !! "Close" = Some close ->
  compute close = Ok v ->
  run_try (assign name compute :: rest)
    {| st_heap := h; st_df := l; st_macd := m |}
  = run_try rest
      {| st_heap :=
           <[l := {| index_len := n;
                     frame_columns := Flat (<[name := v]> c) |}]> h;
         st_df := l; st_macd := m |}.
Proof.
  intros E Hclose Hv. apply run_try_cons_ok. by eapply assign_flat.
Qed.

Lemma run_try_assign_raise rest h l m n c name compute close e :
  h !! l = Some {| index_len := n; frame_columns := Flat c |} ->
  c !! "Close" = Some close ->
  compute close = Raise e ->
  run_try (assign name compute :: rest)
    {| st_heap := h; st_df := l; st_macd := m |}
  = {| st_heap := h; st_df := l; st_macd := m |}.
Proof.
  intros E Hclose Hv. apply (run_try_cons_raise _ _ _ e).
  by eapply assign_flat_raise.
Qed.

Lemma run_try_new_macd_ok L rest h l m0 n c close m :
  h !! l = Some {| index_len := n; frame_columns := Flat c |} ->
  c !! "Close" = Some close ->
  MACD L close = Ok m ->
  run_try (new_macd L :: rest)
    {| st_heap := h; st_df := l; st_macd := m0 |}
  = run_try rest {| st_heap := h; st_df := l; st_macd := Some m |}.
Proof.
  intros E Hclose Hm. apply run_try_cons_ok. unfold new_macd.
  rewrite (getitem_flat _ n c "Close" close) by done.
  cbn [mbind result_bind]. by rewrite Hm.
Qed.

Lemma run_try_assign_macd_ok rest h l m n c name line :
  h !! l = Some {| index_len := n; frame_columns := Flat c |} ->
  run_try (assign_macd name line :: rest)
    {| st_heap := h; st_df := l; st_macd := Some m |}
  = run_try rest
      {| st_heap :=
           <[l := {| index_len := n;
                     frame_columns := Flat (<[name := line m]> c) |}]> h;
         st_df := l; st_macd := Some m |}.
Proof.
  intros E. apply run_try_cons_ok. unfold assign_macd. cbn [st_macd].
  by apply setitem_flat.
Qed.

(** X20: when the frame is not empty, has a [Close] column and no
    library call raises, the call adds exactly the five indicator
    columns computed from [Close] ([SMA_20], [SMA_50], [RSI], [MACD],
    [MACD_Signal]) to the frame it was given and returns that frame. *)
Theorem indicators_all_columns L h l n c close a b r m sg :
  h !! l = Some {| index_len := n; frame_columns := Flat c |} ->
  frame_empty {| index_len := n; frame_columns := Flat c |} = false ->
  c !! "Close" = Some close ->
  sma_indicator L close 20 = Ok a ->
  sma_indicator L close 50 = Ok b ->
  rsi L close 14 = Ok r ->
  MACD L close = Ok (m, sg) ->
  calculate_indicators L h (Some l)
  = (<[l := {| index_len := n;
               frame_columns :=
                 Flat (<["MACD_Signal" := sg]>
                         (<["MACD" := m]>
                            (<["RSI" := r]>
                               (<["SMA_50" := b]>
                                  (<["SMA_20" := a]> c))))) |}]> h,
     Some l).
Proof.
  intros Hl He Hclose Ha Hb Hr Hm.
  rewrite (flat_not_empty_run L h l n c Hl He). unfold try_block.
  assert (flat_at {| st_heap := h; st_df := l; st_macd := None |}) as Hflat
    by (by exists n, c).
  rewrite (run_try_cons_ok _ _ _ _ (squeeze_flat _ Hflat)).
  erewrite run_try_assign_ok; cycle 1;
    [exact Hl | exact Hclose | exact Ha |].
  erewrite run_try_assign_ok; cycle 1;
    [apply lookup_insert_eq | close_kept | exact Hb |].
  rewrite insert_insert_eq.
  erewrite run_try_assign_ok; cycle 1;
    [apply lookup_insert_eq | close_kept | exact Hr |].
  rewrite insert_insert_eq.
  erewrite run_try_new_macd_ok; cycle 1;
    [apply lookup_insert_eq | close_kept | exact Hm |].
  erewrite run_try_assign_macd_ok; cycle 1; [apply lookup_insert_eq|].
  rewrite insert_insert_eq.
  erewrite run_try_assign_macd_ok; cycle 1; [apply lookup_insert_eq|].
  rewrite insert_insert_eq. done.
Qed.

(** X21: the [try] block stops at the first failure and keeps what
    was done: when both moving averages are computed and the RSI raises,
    the frame has gained [SMA_20] and [SMA_50] and nothing else (no
    [RSI], no MACD columns, which are not even attempted). *)
Theorem indicators_partial_failure L h l n c close a b e :
  h !! l = Some {| index_len := n; frame_columns := Flat c |} ->
  frame_empty {| index_len := n; frame_columns := Flat c |} = false ->
  c !! "Close" = Some close ->
  sma_indicator L close 20 = Ok a ->
  sma_indicator L close 50 = Ok b ->
  rsi L close 14 = Raise e ->
  calculate_indicators L h (Some l)
  = (<[l := {| index_len := n;
               frame_columns :=
                 Flat (<["SMA_50" := b]> (<["SMA_20" := a]> c)) |}]> h,
     Some l).
Proof.
  intros Hl He Hclose Ha Hb Hr.
  rewrite (flat_not_empty_run L h l n c Hl He). unfold try_block.
  assert (flat_at {| st_heap := h; st_df := l; st_macd := None |}) as Hflat
    by (by exists n, c).
  rewrite (run_try_cons_ok _ _ _ _ (squeeze_flat _ Hflat)).
  erewrite run_try_assign_ok; cycle 1;
    [exact Hl | exact Hclose | exact Ha |].
  erewrite run_try_assign_ok; cycle 1;
    [apply lookup_insert_eq | close_kept | exact Hb |].
  rewrite insert_insert_eq.
  erewrite run_try_assign_raise; cycle 1;
    [apply lookup_insert_eq | close_kept | exact Hr |].
  done.
Qed.

Lemma assign_column name compute s s' :
  assign name compute s = Ok s' ->
  exists v, column_at (st_heap s') (st_df s') name = Some v.
Proof.
  unfold assign. destruct (getitem s "Close") as [close|]; [|done].
  cbn [mbind result_bind]. destruct (compute close) as [v|]; [|done].
  cbn [mbind result_bind]. intros E. exists v. by eapply setitem_column.
Qed.

Lemma column_at_has_column h l name v :
  column_at h l name = Some v -> has_column h l name = true.
Proof.
  unfold column_at, has_column. destruct (h !! l) as [f|]; [|done].
  cbn [mbind option_bind]. destruct (frame_columns f); [|done].
  intros E. apply bool_decide_eq_true. by exists v.
Qed.

(** On a single-level frame the call either changes nothing or leaves
    an [SMA_20] column in the frame it was given. *)
Lemma calculate_indicators_flat_cases L h l n c :
  h !! l = Some {| index_len := n; frame_columns := Flat c |} ->
  calculate_indicators L h (Some l) = (h, Some l) \/
  exists h1, calculate_indicators L h (Some l) = (h1, Some l) /\
             has_column h1 l "SMA_20" = true.
Proof.
  intros Hl. unfold calculate_indicators. rewrite Hl.
  destruct (frame_empty _); [by left|].
  set (s0 := {| st_heap := h; st_df := l; st_macd := None |}).
  assert (flat_at s0) as Hflat by (by exists n, c).
  unfold try_block. rewrite (run_try_cons_ok _ _ _ _ (squeeze_flat s0 Hflat)).
  destruct (assign "SMA_20" (fun close => sma_indicator L close 20) s0)
    as [s1|e] eqn:Hs1.
  2:{ left. by rewrite (run_try_cons_raise _ _ _ e Hs1). }
  right. rewrite (run_try_cons_ok _ _ _ _ Hs1).
  destruct (assign_column _ _ _ _ Hs1) as [v Hv].
  pose proof (assign_writes_only ["SMA_20"] _ _ _ _
                ltac:(apply list_elem_of_here) Hflat Hs1) as Hw1.
  pose proof (writes_only_flat _ _ _ Hw1) as Hflat1.
  destruct Hw1 as (Hdf1 & _). change (st_df s0) with l in Hdf1.
  pose proof (run_try_writes_only _ _ _ (block_after_sma20 L) Hflat1) as Hw.
  cbn [drop try_block] in Hw.
  pose proof (writes_only_column _ _ _ "SMA_20" Hw ltac:(not_in_names)) as Hk.
  destruct Hw as (Hdf2 & _). rewrite Hdf2, Hdf1 in *.
  eexists. split; [reflexivity|].
  apply (column_at_has_column _ _ _ v). by rewrite Hk.
Qed.

(** X22: the dashboard's guard ['SMA_20' not in df.columns] makes
    the recomputation idempotent on a single-level frame: the reference
    stays the same, and running the guarded step again on its own result
    changes nothing. *)
Theorem ensure_indicators_idempotent L h l n c :
  h !! l = Some {| index_len := n; frame_columns := Flat c |} ->
  (ensure_indicators L h l).2 = Some l /\
  ensure_indicators L (ensure_indicators L h l).1 l = ensure_indicators L h l.
Proof.
  intros Hl. unfold ensure_indicators.
  destruct (has_column h l "SMA_20") eqn:Hhas.
  { cbn [fst snd]. by rewrite Hhas. }
  destruct (calculate_indicators_flat_cases L h l n c Hl)
    as [E|(h1 & E & Hhas1)]; rewrite E; cbn [fst snd].
  - by rewrite Hhas, E.
  - by rewrite Hhas1.
Qed.

Lemma indicators_without_close_witness :
  calculate_indicators ta_short frame_no_close (Some 0%nat)
  = (frame_no_close, Some 0%nat).
Proof.
  apply (indicators_without_close ta_short frame_no_close 0 1
           {[ "Open" := [1.5] ]}).
  - vm_compute. reflexivity.
  - vm_compute. reflexivity.
Defined.

Lemma indicators_multi_index_no_mutation_witness :
  (forall l', is_Some (frame_multi !! l') ->
     (calculate_indicators ta_short frame_multi (Some 0%nat)).1 !! l'
     = frame_multi !! l') /\
  ((calculate_indicators ta_short frame_multi (Some 0%nat)).2 = Some 0%nat \/
   exists l',
     (calculate_indicators ta_short frame_multi (Some 0%nat)).2 = Some l' /\
     frame_multi !! l' = None).
Proof.
  apply (indicators_multi_index_no_mutation ta_short frame_multi 0 1
           ["AAPL"] {[ ("Close", "AAPL") := [1.5] ]}).
  vm_compute. reflexivity.
Defined.

Lemma indicators_all_columns_witness :
  calculate_indicators ta_short one_bar (Some 0%nat)
  = (<[0%nat := {| index_len := 1;
                   frame_columns :=
                     Flat (<["MACD_Signal" := [nan]]>
                             (<["MACD" := [nan]]>
                                (<["RSI" := [nan]]>
                                   (<["SMA_50" := [nan]]>
                                      (<["SMA_20" := [nan]]>
                                         {[ "Close" := [1.5] ]}))))) |}]>
       one_bar,
     Some 0%nat).
Proof.
  apply (indicators_all_columns ta_short one_bar 0 1 {[ "Close" := [1.5] ]}
           [1.5] [nan] [nan] [nan] [nan] [nan]);
    vm_compute; reflexivity.
Defined.

Lemma indicators_partial_failure_witness :
  calculate_indicators ta_rsi_fails one_bar (Some 0%nat)
  = (<[0%nat := {| index_len := 1;
                   frame_columns :=
                     Flat (<["SMA_50" := [nan]]>
                             (<["SMA_20" := [nan]]>
                                {[ "Close" := [1.5] ]})) |}]> one_bar,
     Some 0%nat).
Proof.
  apply (indicators_partial_failure ta_rsi_fails one_bar 0 1
           {[ "Close" := [1.5] ]} [1.5] [nan] [nan] TypeError);
    vm_compute; reflexivity.
Defined.

Lemma ensure_indicators_idempotent_witness :
  (ensure_indicators ta_short one_bar 0).2 = Some 0%nat /\
  ensure_indicators ta_short (ensure_indicators ta_short one_bar 0).1 0
  = ensure_indicators ta_short one_bar 0.
Proof.
  apply (ensure_indicators_idempotent ta_short one_bar 0 1
           {[ "Close" := [1.5] ]}).
  vm_compute. reflexivity.
Defined.
End IndicatorsExtra.

(** ** calculate_indicators works in place *)

Module IndicatorsInPlace.
Import Indicators Samples FrameSamples IndicatorsFacts IndicatorsExtra.
Local Open Scope float_scope.

(** C9, amended: the function works in place.  On a single-level frame
    it returns the reference it was given; the frame that reference
    denotes keeps its rows and every column that is not one of the five
    indicator columns, and every other frame of the store is untouched;
    but the indicator columns are written into the frame itself: as
    soon as the library gives the 20-bar average of [Close], that
    column is the frame's [SMA_20] after the call, and when no library
    call raises, [SMA_20], [SMA_50], [RSI], [MACD] and [MACD_Signal]
    of the frame are the five columns the library computed from
    [Close]. *)
Theorem calculate_indicators_in_place (L : ta_lib) (h : gmap nat frame)
    (l n : nat) (c : gmap string column) :
  h !! l = Some {| index_len := n; frame_columns := Flat c |} ->
  (calculate_indicators L h (Some l)).2 = Some l /\
  (forall l', l' <> l ->
     (calculate_indicators L h (Some l)).1 !! l' = h !! l') /\
  (exists c',
     (calculate_indicators L h (Some l)).1 !! l
     = Some {| index_len := n; frame_columns := Flat c' |} /\
     forall name, name ∉ indicator_names -> c' !! name = c !! name) /\
  (forall close v,
     frame_empty {| index_len := n; frame_columns := Flat c |} = false ->
     c !! "Close" = Some close ->
     sma_indicator L close 20 = Ok v ->
     column_at (calculate_indicators L h (Some l)).1 l "SMA_20" = Some v) /\
  (forall close a b r m sg,
     frame_empty {| index_len := n; frame_columns := Flat c |} = false ->
     c !! "Close" = Some close ->
     sma_indicator L close 20 = Ok a ->
     sma_indicator L close 50 = Ok b ->
     rsi L close 14 = Ok r ->
     MACD L close = Ok (m, sg) ->
     column_at (calculate_indicators L h (Some l)).1 l "SMA_20" = Some a /\
     column_at (calculate_indicators L h (Some l)).1 l "SMA_50" = Some b /\
     column_at (calculate_indicators L h (Some l)).1 l "RSI" = Some r /\
     column_at (calculate_indicators L h (Some l)).1 l "MACD" = Some m /\
     column_at (calculate_indicators L h (Some l)).1 l "MACD_Signal" = Some sg).
Proof.
  intros Hl.
  set (s0 := {| st_heap := h; st_df := l; st_macd := None |}).
  assert (flat_at s0) as Hflat by (by exists n, c).
  split; [|split; [|split; [|split]]].
  - unfold calculate_indicators. rewrite Hl.
    destruct (frame_empty _); [done|]. cbn [snd]. fold s0. f_equal.
    by destruct (run_try_writes_only _ _ _ (block_writes_indicators L) Hflat)
      as (-> & _).
  - intros l' Hl'. unfold calculate_indicators. rewrite Hl.
    destruct (frame_empty _); [done|]. cbn [fst]. fold s0.
    destruct (run_try_writes_only _ _ _ (block_writes_indicators L) Hflat)
      as (_ & Hoff & _).
    by apply Hoff.
  - unfold calculate_indicators. rewrite Hl.
    destruct (frame_empty _); [by exists c|]. cbn [fst]. fold s0.
    destruct (run_try_writes_only _ _ _ (block_writes_indicators L) Hflat)
      as (_ & _ & n' & c0 & c' & E0 & E' & Hc).
    change (st_heap s0) with h in *. change (st_df s0) with l in *.
    rewrite Hl in E0. simplify_eq. by exists c'.
  - intros close v He Hclose Hsma.
    rewrite (flat_not_empty_run L h l n c Hl He). cbn [fst].
    unfold try_block. fold s0.
    rewrite (run_try_cons_ok _ _ _ _ (squeeze_flat s0 Hflat)). unfold s0.
    erewrite run_try_assign_ok; cycle 1;
      [exact Hl | exact Hclose | exact Hsma |].
    set (s1 := {| st_heap := _; st_df := l; st_macd := None |}).
    assert (flat_at s1) as Hflat1.
    { exists n, (<["SMA_20" := v]> c). cbn [s1 st_heap st_df].
      by rewrite lookup_insert_eq. }
    pose proof (run_try_writes_only _ _ _ (block_after_sma20 L) Hflat1) as Hw.
    cbn [drop try_block] in Hw.
    pose proof (writes_only_column _ _ _ "SMA_20" Hw ltac:(not_in_names)) as Hk.
    destruct Hw as (Hdf & _). rewrite Hdf in Hk.
    change (st_df s1) with l in Hk. rewrite Hk.
    unfold column_at. cbn [s1 st_heap]. rewrite lookup_insert_eq.
    cbn [mbind option_bind frame_columns]. by rewrite lookup_insert_eq.
  - intros close a b r m sg He Hclose Ha Hb Hr Hm.
    rewrite (flat_not_empty_run L h l n c Hl He). cbn [fst].
    unfold try_block. fold s0.
    rewrite (run_try_cons_ok _ _ _ _ (squeeze_flat s0 Hflat)). unfold s0.
    erewrite run_try_assign_ok; cycle 1;
      [exact Hl | exact Hclose | exact Ha |].
    erewrite run_try_assign_ok; cycle 1;
      [apply lookup_insert_eq | close_kept | exact Hb |].
    rewrite insert_insert_eq.
    erewrite run_try_assign_ok; cycle 1;
      [apply lookup_insert_eq | close_kept | exact Hr |].
    rewrite insert_insert_eq.
    erewrite run_try_new_macd_ok; cycle 1;
      [apply lookup_insert_eq | close_kept | exact Hm |].
    erewrite run_try_assign_macd_ok; cycle 1; [apply lookup_insert_eq|].
    rewrite insert_insert_eq.
    erewrite run_try_assign_macd_ok; cycle 1; [apply lookup_insert_eq|].
    rewrite insert_insert_eq. cbn [run_try st_heap fst snd].
    unfold column_at. rewrite lookup_insert_eq.
    cbn [mbind option_bind frame_columns].
    repeat split;
      repeat first [ by rewrite lookup_insert_eq
                   | rewrite lookup_insert_ne by discriminate ].
Qed.

(** A one-bar frame: the library cannot fill any window and answers
    with columns of NaN, which are written into the frame. *)
Lemma calculate_indicators_in_place_witness :
  (calculate_indicators ta_short one_bar (Some 0%nat)).2 = Some 0%nat /\
  (forall l', l' <> 0%nat ->
     (calculate_indicators ta_short one_bar (Some 0%nat)).1 !! l'
     = one_bar !! l') /\
  column_at (calculate_indicators ta_short one_bar (Some 0%nat)).1 0 "SMA_20"
  = Some [nan] /\
  column_at (calculate_indicators ta_short one_bar (Some 0%nat)).1 0 "SMA_50"
  = Some [nan] /\
  column_at (calculate_indicators ta_short one_bar (Some 0%nat)).1 0 "RSI"
  = Some [nan] /\
  column_at (calculate_indicators ta_short one_bar (Some 0%nat)).1 0 "MACD"
  = Some [nan] /\
  column_at (calculate_indicators ta_short one_bar (Some 0%nat)).1 0
    "MACD_Signal" = Some [nan].
Proof.
  destruct (calculate_indicators_in_place ta_short one_bar 0 1
              {[ "Close" := [1.5] ]}) as (Href & Hoff & _ & _ & Hall).
  { vm_compute. reflexivity. }
  split; [exact Href|]. split; [exact Hoff|].
  apply (Hall [1.5] [nan] [nan] [nan] [nan] [nan]); vm_compute; reflexivity.
Defined.
End IndicatorsInPlace.

(** ** The dashboard *)

Module ValuationFacts.
Import Dcf DcfFacts Valuation ValuationSamples.

Lemma substring_all (s : string) : String.substring 0 (String.length s) s = s.
Proof. induction s as [|a s IH]; simpl; [done|]. by rewrite IH. Qed.

Lemma substring_skip (s t : string) :
  String.substring (String.length s) (String.length t) (s ++ t) = t.
Proof. induction s as [|a s IH]; simpl; [apply substring_all|exact IH]. Qed.

Lemma length_app_string (s t : string) :
  String.length (s ++ t) = (String.length s + String.length t)%nat.
Proof. induction s as [|a s IH]; simpl; [done|]. by rewrite IH. Qed.

Lemma ends_with_append (s suffix : string) : ends_with (s ++ suffix) suffix = true.
Proof.
  unfold ends_with. rewrite length_app_string.
  replace (String.length s + String.length suffix - String.length suffix)%nat
    with (String.length s) by lia.
  rewrite substring_skip, String.eqb_refl, andb_true_r.
  apply Nat.leb_le. lia.
Qed.

(** X23: resolving the ticker is idempotent for every market; for
    the KOSPI market the result ends with ".KS", for KOSDAQ with ".KQ",
    and for the US market the input is left as it is. *)
Theorem resolve_ticker_suffix market ticker :
  resolve_ticker market (resolve_ticker market ticker)
  = resolve_ticker market ticker /\
  ends_with (resolve_ticker "Korea (KOSPI)" ticker) ".KS" = true /\
  ends_with (resolve_ticker "Korea (KOSDAQ)" ticker) ".KQ" = true /\
  resolve_ticker "US" ticker = ticker.
Proof.
  assert (forall suffix t,
            ends_with (if negb (ends_with t suffix) then t ++ suffix else t)
              suffix = true) as Hends.
  { intros suffix t. destruct (ends_with t suffix) eqn:E; cbn [negb];
      [done|apply ends_with_append]. }
  split; [|split; [apply Hends|split; [apply Hends|done]]].
  unfold resolve_ticker.
  destruct (String.eqb market "Korea (KOSPI)");
    [by rewrite Hends|].
  destruct (String.eqb market "Korea (KOSDAQ)"); [by rewrite Hends|done].
Qed.

Lemma num_truthy_num (v : value num) :
  num_truthy v = true -> exists n, v = VNum n /\ (num_val n =? 0)%float = false.
Proof.
  destruct v as [|n]; [done|]. cbn [num_truthy]. intros H. exists n.
  split; [done|]. by apply negb_true_iff in H.
Qed.

Lemma or_zero_num (v : value num) : exists n, or_zero v = VNum n.
Proof.
  unfold or_zero. destruct (num_truthy v) eqn:E; [|by eexists].
  apply num_truthy_num in E as (n & -> & _). by eexists.
Qed.

(** X24: the valuation view never fails outside [calculate_dcf]: on
    a profile of numbers and [None]s the net debt
    [(total_debt or 0) - (total_cash or 0)], which is computed outside
    any [try], cannot raise. *)
Theorem valuation_view_never_crashes R info g t d e :
  valuation_view R info g t d <> Crash e.
Proof.
  unfold valuation_view. destruct info as [info|]; [|done].
  case_bool_decide; [done|].
  destruct (num_truthy _ && num_truthy _); [|done].
  destruct (or_zero_num (dict_get info "totalDebt")) as [[ktd td] ->].
  destruct (or_zero_num (dict_get info "totalCash")) as [[ktc tc] ->].
  done.
Qed.

(** X25: with a non-zero free cash flow and a non-zero share count
    in the profile the view computes a result, and that result is
    [None] exactly when a year of the projection fails (a power
    overflows, or a discount factor is zero and the free cash flow is a
    Python number) or the spread of the two rates is zero while every
    number that reaches that division is a Python number.  Under the
    dashboard's guard a zero share count or a missing input cannot be
    the cause; with a free cash flow read from the cash-flow table (a
    numpy scalar) a zero spread gives no [None] either. *)
Theorem valuation_view_result R info fcf shares g t d :
  dict_get info "freeCashFlow" = VNum fcf ->
  (num_val fcf =? 0)%float = false ->
  dict_get info "sharesOutstanding" = VNum shares ->
  (num_val shares =? 0)%float = false ->
  exists r,
    valuation_view R (Some info) g t d = Computed r /\
    (r = VNone <->
     existsb (year_fails R fcf (Num Py (g / 100)) (Num Py (d / 100)))
       (seq 1 5) = true \/
     (is_py (num_kind fcf) = true /\ (d / 100 - t / 100 =? 0)%float = true)).
Proof.
  intros Hf Hfz Hs Hsz. unfold valuation_view.
  case_bool_decide as Hempty.
  { subst info. unfold dict_get in Hf. by rewrite lookup_empty in Hf. }
  rewrite Hf, Hs. cbn [num_truthy]. rewrite Hfz, Hsz. cbn [negb andb].
  destruct (or_zero_num (dict_get info "totalDebt")) as [[ktd td] ->].
  destruct (or_zero_num (dict_get info "totalCash")) as [[ktc tc] ->].
  cbn [py_sub]. eexists. split; [reflexivity|].
  unfold py. rewrite calculate_dcf_num. unfold dcf_fails, all_py.
  cbn [forallb num_kind num_val is_py].
  rewrite Hsz, !andb_true_r, andb_false_r, orb_false_r.
  destruct (existsb _ _); cbn [orb]; [split; [by left|done]|].
  destruct (is_py (num_kind fcf)), (d / 100 - t / 100 =? 0)%float; cbn [andb];
    split; try done; try (by right); intros [?|[? ?]]; done.
Qed.

Lemma valuation_view_result_witness :
  exists r,
    valuation_view runtime_ref (Some profile_table) 10 2.5 10 = Computed r /\
    (r = VNone <->
     existsb (year_fails runtime_ref (Num Np 100) (Num Py (10 / 100))
                (Num Py (10 / 100))) (seq 1 5) = true \/
     (is_py Np = true /\ (10 / 100 - 2.5 / 100 =? 0)%float = true)).
Proof.
  apply (valuation_view_result runtime_ref profile_table (Num Np 100)
           (Num Py 10) 10 2.5 10); reflexivity.
Defined.

Lemma normalize_not_empty p info v :
  Normalize.normalize p info !! "currentPrice" = Some v ->
  Normalize.normalize p info <> ∅.
Proof. intros E H. rewrite H in E. by rewrite lookup_empty in E. Qed.

(** X26: the price the dashboard shows after a fetch is the fast quote
    whenever [stock.info] answers and the fast quote is truthy. *)
Theorem displayed_price_is_fast_quote p snapshot v :
  Normalize.stock_info p = Ok snapshot ->
  Normalize.fast_info_get p "last_price" = Ok v ->
  F.truthy v = true ->
  display_price (Normalize.fetch_stock_info p) = Some v.
Proof.
  intros Hinfo Hq Ht. unfold Normalize.fetch_stock_info. rewrite Hinfo.
  assert (Normalize.normalize p snapshot !! "currentPrice" = Some v) as Hcp.
  { rewrite NormalizeFacts.lookup_normalize.
    rewrite NormalizeExtra.normalize_at_current_price.
    by rewrite (NormalizeExtra.price_src_fast p v Hq Ht). }
  unfold display_price.
  rewrite bool_decide_eq_false_2 by (by eapply normalize_not_empty).
  unfold dict_get. rewrite Hcp. simpl. by rewrite Ht.
Qed.

Lemma displayed_price_is_fast_quote_witness :
  display_price
    (Normalize.fetch_stock_info
       (Samples.provider_of (VNum 101%float) (VNum 999%float)
          Samples.cf_fallback))
  = Some (VNum 101%float).
Proof.
  apply (displayed_price_is_fast_quote
           (Samples.provider_of (VNum 101%float) (VNum 999%float)
              Samples.cf_fallback) ∅ (VNum 101%float)).
  - reflexivity.
  - reflexivity.
  - vm_compute. reflexivity.
Defined.
End ValuationFacts.
